(** * cri-o server: container statistics and live resource updates

    A shallow embedding of [server/container_stats.go] and
    [server/container_update_resources.go].

    Go pointers that may be nil are options, Go [(value, error)] results are
    sums, Go [error] results are [option error], and the server together with
    its collaborators (the OCI runtime, the host filesystem, the log) is an
    explicit state that every effectful operation threads through. *)

From Stdlib Require Import ZArith Ascii.
From stdpp Require Import base option list strings gmap.

Local Open Scope Z_scope.

(** ** Strings and errors *)

(** A Go [error] is modelled by the message its [Error()] method returns. *)
Definition error : Type := string.

(** [strings.Contains]: [substr] occurs somewhere inside [s]. *)
Fixpoint Contains (s substr : string) : bool :=
  String.prefix substr s ||
  match s with
  | EmptyString => false
  | String _ s' => Contains s' substr
  end.

(** ** Lexical path functions of Go's [path/filepath] (Unix flavour) *)

Module filepath.

Definition Separator : ascii := "/"%char.

(** The elements of a path between separators, empty elements included. *)
Fixpoint elements (cur path : string) : list string :=
  match path with
  | EmptyString => [cur]
  | String a rest =>
      if Ascii.eqb a Separator then cur :: elements "" rest
      else elements (cur +:+ String a "") rest
  end.

(** One element of [Clean]'s scan; [out] is the stack of the elements kept
    so far, the last one first. *)
Definition cleanElem (rooted : bool) (out : list string) (e : string) : list string :=
  if String.eqb e "" || String.eqb e "." then out
  else if String.eqb e ".." then
    match out with
    | top :: below => if String.eqb top ".." then e :: out else below
    | [] => if rooted then [] else [e]
    end
  else e :: out.

Definition isRooted (path : string) : bool :=
  match path with
  | String a _ => Ascii.eqb a Separator
  | EmptyString => false
  end.

(** [filepath.Clean]: the shortest path name equivalent to [path] by purely
    lexical processing. *)
Definition Clean (path : string) : string :=
  let rooted := isRooted path in
  let out := foldl (cleanElem rooted) [] (elements "" path) in
  let body := String.concat "/" (rev out) in
  if rooted then "/" +:+ body
  else if String.eqb body "" then "." else body.

Fixpoint hasSeparator (path : string) : bool :=
  match path with
  | EmptyString => false
  | String a rest => Ascii.eqb a Separator || hasSeparator rest
  end.

(** [path[:i+1]] where [i] is the index of the last separator. *)
Fixpoint upToLastSeparator (path : string) : string :=
  match path with
  | EmptyString => ""
  | String a rest =>
      if hasSeparator path then String a (upToLastSeparator rest) else ""
  end.

(** [filepath.Dir]: all but the last element of [path], cleaned. *)
Definition Dir (path : string) : string := Clean (upToLastSeparator path).

(** [filepath.Join]: the non-empty elements joined by separators, cleaned;
    leading empty elements are ignored. *)
Fixpoint Join (elem : list string) : string :=
  match elem with
  | [] => ""
  | e :: rest =>
      if String.eqb e "" then Join rest else Clean (String.concat "/" elem)
  end.

End filepath.


(** ** Data model *)

(** [rspec]: the OCI runtime-spec resource limits.  A Go pointer field that
    [toOCIResources] may leave nil is an [option]; [uint64] and [int64] values
    are integers ([Z]), with the wrap-around of a conversion written out where
    the code converts.  [LinuxResources] also has device, pids, block-IO,
    hugepage and network sections, none of which this code ever touches. *)
Module rspec.

Record LinuxCPU := {
  Shares : option Z;            (* *uint64 *)
  Quota : option Z;             (* *int64 *)
  Period : option Z;            (* *uint64 *)
  RealtimeRuntime : option Z;   (* *int64 *)
  RealtimePeriod : option Z;    (* *uint64 *)
  Cpus : string;
  Mems : string
}.

Record LinuxMemory := {
  Limit : option Z;             (* *int64 *)
  Reservation : option Z;       (* *int64 *)
  Swap : option Z;              (* *int64 *)
  Kernel : option Z;            (* *int64 *)
  KernelTCP : option Z;         (* *int64 *)
  Swappiness : option Z;        (* *uint64 *)
  DisableOOMKiller : option bool
}.

Record LinuxResources := {
  CPU : option LinuxCPU;
  Memory : option LinuxMemory
}.

End rspec.

(** [oci]: the in-memory container object and the runtime's raw statistics. *)
Module oci.

(** The lifecycle states of a container. *)
Inductive ContainerStatus := Created | Running | Paused | Stopped.

Record Metadata := {
  Name : string;
  Attempt : Z                   (* uint32 *)
}.

(** What the accessors [ID()], [Sandbox()], [MountPoint()], [Metadata()],
    [Labels()] and [Annotations()] read, the lifecycle state that [IsAlive]
    inspects, and the resource-limit snapshot that a successful update
    replaces. *)
Record Container := {
  ID : string;
  Sandbox : string;
  MountPoint : string;
  metadata : Metadata;
  Labels : gmap string string;
  Annotations : gmap string string;
  status : ContainerStatus;
  resources : option rspec.LinuxResources
}.

(** The fields of the runtime's statistics that [buildContainerStats] reads. *)
Record ContainerStats := {
  SystemNano : Z;               (* int64 *)
  CPUNano : Z;                  (* uint64 *)
  WorkingSetBytes : Z           (* uint64 *)
}.

(** The container with its resource-limit snapshot replaced. *)
Definition withResources (c : Container) (r : option rspec.LinuxResources) : Container :=
  {| ID := ID c; Sandbox := Sandbox c; MountPoint := MountPoint c;
     metadata := metadata c; Labels := Labels c; Annotations := Annotations c;
     status := status c; resources := r |}.

Definition statusName (st : ContainerStatus) : string :=
  match st with
  | Created => "created"
  | Running => "running"
  | Paused => "paused"
  | Stopped => "stopped"
  end.

(** Modelled from the spec: [Container.IsAlive] is not part of the two
    files embedded here.  Spec 4.4: only containers in a "created" or
    "running" state accept updates; any other state fails the liveness
    check.  The wording of the error is not specified; the one below is a
    stand-in and no theorem depends on it. *)
Definition IsAlive (c : Container) : option error :=
  match status c with
  | Created | Running => None
  | st => Some ("container " +:+ ID c +:+ " is " +:+ statusName st)
  end.

End oci.

Module sandbox.

Record Sandbox := {
  ID : string;
  CgroupParent : string
}.

End sandbox.

(** [types]: the CRI request and response messages.  Field names that occur
    in several messages carry the message name as a prefix. *)
Module types.

Record UInt64Value := { Value : Z }.

Record ContainerMetadata := {
  Name : string;
  Attempt : Z
}.

Record ContainerAttributes := {
  ID : string;
  Metadata : option ContainerMetadata;
  Labels : gmap string string;
  Annotations : gmap string string
}.

Record CPUUsage := {
  CPUUsage_Timestamp : Z;
  UsageCoreNanoSeconds : option UInt64Value
}.

Record MemoryUsage := {
  MemoryUsage_Timestamp : Z;
  WorkingSetBytes : option UInt64Value
}.

Record FilesystemIdentifier := { Mountpoint : string }.

Record FilesystemUsage := {
  FilesystemUsage_Timestamp : Z;
  FsID : option FilesystemIdentifier;
  UsedBytes : option UInt64Value;
  InodesUsed : option UInt64Value
}.

Record ContainerStats := {
  Attributes : option ContainerAttributes;
  CPU : option CPUUsage;
  Memory : option MemoryUsage;
  WritableLayer : option FilesystemUsage
}.

Record ContainerStatsRequest := { ContainerStatsRequest_ContainerID : string }.

Record ContainerStatsResponse := { Stats : option ContainerStats }.

Record LinuxContainerResources := {
  CPUPeriod : Z;                (* int64 *)
  CPUQuota : Z;                 (* int64 *)
  CPUShares : Z;                (* int64 *)
  MemoryLimitInBytes : Z;       (* int64 *)
  OomScoreAdj : Z;              (* int64 *)
  CPUsetCPUs : string;
  CPUsetMems : string
}.

Record UpdateContainerResourcesRequest := {
  ContainerID : string;
  Linux : option LinuxContainerResources
}.

End types.

(** The conversion [uint64(x)] of an [int64]: two's complement wrap-around. *)
Definition uint64 (x : Z) : Z := x mod 2 ^ 64.

(** ** Collaborators *)

(** What the server asks of its surroundings.  [World] is the state of
    everything outside the server process: the OCI runtime with the live
    containers and the host filesystem.

    - [runtime_ContainerStats] and [runtime_UpdateContainer] are the two
      methods of the runtime ([s.Runtime()]) that this code calls.  Either may
      change the world; each returns a result or an error.  The runtime is
      handed the container but not the server's registry.
    - [node_CgroupHasMemorySwap] is [node.CgroupHasMemorySwap()]: whether the
      host's cgroup controller accounts swap memory.
    - [diskWalk] is the filesystem walk behind the disk-usage probe: bytes and
      inodes used below a path, or the error that stopped the walk.  It is a
      pure query of the world. *)
Class Host (World : Type) := {
  runtime_ContainerStats :
    oci.Container → string → World → (oci.ContainerStats + error) * World;
  runtime_UpdateContainer :
    oci.Container → rspec.LinuxResources → World → option error * World;
  node_CgroupHasMemorySwap : bool;
  diskWalk : string → World → (Z * Z) + error
}.

(** The observable actions of one server call, oldest first: every call made
    to the runtime and every warning written to the log. *)
Inductive Event :=
  | CallContainerStats (id cgroup : string)
  | CallUpdateContainer (id : string) (res : rspec.LinuxResources)
  | Warning (msg : string).

(** The server: the container and sandbox registries (keyed by full ID), the
    index that resolves a short ID to a full one, the configured storage
    driver ([Config().RootConfig.Storage]), the world outside, and the journal
    of what the server did to it. *)
Record Server (World : Type) := {
  containers : gmap string oci.Container;
  sandboxes : gmap string sandbox.Sandbox;
  ctrIDIndex : string → option string;
  Storage : string;
  world : World;
  journal : list Event
}.

Arguments containers {World} _.
Arguments sandboxes {World} _.
Arguments ctrIDIndex {World} _ _.
Arguments Storage {World} _.
Arguments world {World} _.
Arguments journal {World} _.

Section Server.

Context {World : Type} `{!Host World}.

Definition setContainers (m : gmap string oci.Container) (s : Server World) : Server World :=
  {| containers := m; sandboxes := sandboxes s; ctrIDIndex := ctrIDIndex s;
     Storage := Storage s; world := world s; journal := journal s |}.

(** The world moves on to [w] and [ev] is appended to the journal. *)
Definition record (ev : Event) (w : World) (s : Server World) : Server World :=
  {| containers := containers s; sandboxes := sandboxes s;
     ctrIDIndex := ctrIDIndex s; Storage := Storage s;
     world := w; journal := journal s ++ [ev] |}.

(** [log.Warnf]. *)
Definition log_Warnf (msg : string) (s : Server World) : Server World :=
  record (Warning msg) (world s) s.

(** [s.Runtime().ContainerStats(c, cgroup)]. *)
Definition Runtime_ContainerStats (c : oci.Container) (cgroup : string)
    (s : Server World) : (oci.ContainerStats + error) * Server World :=
  let '(r, w) := runtime_ContainerStats c cgroup (world s) in
  (r, record (CallContainerStats (oci.ID c) cgroup) w s).

(** [s.Runtime().UpdateContainer(c, resources)]. *)
Definition Runtime_UpdateContainer (c : oci.Container) (res : rspec.LinuxResources)
    (s : Server World) : option error * Server World :=
  let '(r, w) := runtime_UpdateContainer c res (world s) in
  (r, record (CallUpdateContainer (oci.ID c) res) w s).

(** Modelled from the spec: [Server.GetContainerFromShortID] is not part of
    the two files embedded here.  Spec 6:
    [resolveContainer(shortID) -> Container | NotFoundError]. *)
Definition GetContainerFromShortID (s : Server World) (cid : string) : oci.Container + error :=
  match ctrIDIndex s cid with
  | None => inr ("container with ID starting with " +:+ cid +:+ " not found")
  | Some id =>
      match containers s !! id with
      | None => inr ("specified container not found: " +:+ id)
      | Some c => inl c
      end
  end.

(** Modelled from the spec: [Server.GetSandbox] is not part of the two files
    embedded here.  Spec 6: [resolveSandbox(id) -> Sandbox | nil]. *)
Definition GetSandbox (s : Server World) (id : string) : option sandbox.Sandbox :=
  sandboxes s !! id.

(** Modelled from the spec: [Server.UpdateContainerLinuxResources] is not
    part of the two files embedded here.  Spec 4.4: replace the in-memory
    resource snapshot on the Container object with the applied spec; spec 3:
    replaced wholesale, never partially patched.  The container object is
    the registry's entry under the container's ID. *)
Definition UpdateContainerLinuxResources (c : oci.Container)
    (res : rspec.LinuxResources) (s : Server World) : Server World :=
  setContainers
    (alter (λ c', oci.withResources c' (Some res)) (oci.ID c) (containers s)) s.

(** Modelled from the spec: [statsmgr.GetDiskUsageStats] is not part of the
    two files embedded here.  Spec 4.2:
    [diskUsage(path) -> (bytesUsed, inodesUsed, error)]; a probe that returns
    an error has failed and carries zero values. *)
Definition GetDiskUsageStats (path : string) (w : World) : Z * Z * option error :=
  match diskWalk path w with
  | inl (dirSize, inodeCount) => (dirSize, inodeCount, None)
  | inr err => (0, 0, Some err)
  end.

(** ** [server/container_update_resources.go] *)

(** [toOCIResources] converts CRI resource constraints to OCI. *)
Definition toOCIResources (r : types.LinuxContainerResources) : rspec.LinuxResources :=
  let memory := types.MemoryLimitInBytes r in
  {| rspec.CPU := Some
       {| rspec.Shares :=
            if decide (types.CPUShares r ≠ 0) then Some (uint64 (types.CPUShares r)) else None;
          rspec.Quota :=
            if decide (types.CPUQuota r ≠ 0) then Some (types.CPUQuota r) else None;
          rspec.Period :=
            if decide (types.CPUPeriod r ≠ 0) then Some (uint64 (types.CPUPeriod r)) else None;
          rspec.RealtimeRuntime := None;
          rspec.RealtimePeriod := None;
          rspec.Cpus := types.CPUsetCPUs r;
          rspec.Mems := types.CPUsetMems r |};
     rspec.Memory := Some
       {| rspec.Limit := if decide (memory ≠ 0) then Some memory else None;
          rspec.Reservation := None;
          rspec.Swap :=
            if decide (memory ≠ 0)
            then (if node_CgroupHasMemorySwap then Some memory else None)
            else None;
          rspec.Kernel := None;
          rspec.KernelTCP := None;
          rspec.Swappiness := None;
          rspec.DisableOOMKiller := None |} |}.

(** [UpdateContainerResources] updates ContainerConfig of the container. *)
Definition UpdateContainerResources (req : types.UpdateContainerResourcesRequest)
    (s : Server World) : option error * Server World :=
  match GetContainerFromShortID s (types.ContainerID req) with
  | inr err => (Some err, s)
  | inl c =>
      match oci.IsAlive c with
      | Some err => (Some ("container is not created or running: " +:+ err), s)
      | None =>
          match types.Linux req with
          | Some linux =>
              let resources := toOCIResources linux in
              let '(r, s1) := Runtime_UpdateContainer c resources s in
              match r with
              | Some err => (Some err, s1)
              | None =>
                  (* update memory store with updated resources *)
                  (None, UpdateContainerLinuxResources c resources s1)
              end
          | None => (None, s)
          end
      end
  end.

(** ** [server/container_stats.go] *)

(** [buildContainerStats] takes stats directly from the container, and
    attempts to inject the filesystem usage of the container. *)
Definition buildContainerStats (stats : oci.ContainerStats) (container : oci.Container)
    (s : Server World) : types.ContainerStats * Server World :=
  let '(writableLayer, s1) :=
    if decide (Storage s = "overlay") then
      let diffDir := filepath.Join [filepath.Dir (oci.MountPoint container); "diff"] in
      let '(bytesUsed, inodeUsed, err) := GetDiskUsageStats diffDir (world s) in
      let s1 :=
        match err with
        | Some e =>
            log_Warnf ("unable to get disk usage for container "
                       +:+ oci.ID container +:+ "， " +:+ e) s
        | None => s
        end in
      (Some {| types.FilesystemUsage_Timestamp := oci.SystemNano stats;
               types.FsID := Some {| types.Mountpoint := oci.MountPoint container |};
               types.UsedBytes := Some {| types.Value := bytesUsed |};
               types.InodesUsed := Some {| types.Value := inodeUsed |} |}, s1)
    else (None, s) in
  ({| types.Attributes := Some
        {| types.ID := oci.ID container;
           types.Metadata := Some
             {| types.Name := oci.Name (oci.metadata container);
                types.Attempt := oci.Attempt (oci.metadata container) |};
           types.Labels := oci.Labels container;
           types.Annotations := oci.Annotations container |};
      types.CPU := Some
        {| types.CPUUsage_Timestamp := oci.SystemNano stats;
           types.UsageCoreNanoSeconds := Some {| types.Value := oci.CPUNano stats |} |};
      types.Memory := Some
        {| types.MemoryUsage_Timestamp := oci.SystemNano stats;
           types.WorkingSetBytes := Some {| types.Value := oci.WorkingSetBytes stats |} |};
      types.WritableLayer := writableLayer |}, s1).

(** The error recorded for a container whose sandbox is not registered. *)
Definition sandboxNotFound (c : oci.Container) : error :=
  "unable to get stats for container " +:+ oci.ID c
  +:+ ": sandbox " +:+ oci.Sandbox c +:+ " not found".

(** The [for _, c := range containers] loop of [CRIStatsForContainers], with
    the two slices it appends to. *)
Fixpoint statsLoop (containers : list oci.Container)
    (stats : list types.ContainerStats) (errs : list error)
    (s : Server World) : list types.ContainerStats * list error * Server World :=
  match containers with
  | [] => (stats, errs, s)
  | c :: rest =>
      match GetSandbox s (oci.Sandbox c) with
      | None => statsLoop rest stats (errs ++ [sandboxNotFound c]) s
      | Some sb =>
          let cgroup := sandbox.CgroupParent sb in
          let '(r, s1) := Runtime_ContainerStats c cgroup s in
          match r with
          | inr err => statsLoop rest stats (errs ++ [err]) s1
          | inl ociStat =>
              let '(st, s2) := buildContainerStats ociStat c s1 in
              statsLoop rest (stats ++ [st]) errs s2
          end
      end
  end.

Definition CRIStatsForContainers (containers : list oci.Container) (s : Server World)
    : list types.ContainerStats * list error * Server World :=
  statsLoop containers [] [] s.

(** Lines 22 to 30 of [ContainerStats]: what the single-container entry
    point makes of the batch call's two slices. *)
Definition singleResult (containerID : string)
    (stats : list types.ContainerStats) (errs : list error)
    : types.ContainerStatsResponse + error :=
  match errs with
  | e :: _ => inr e
  | [] =>
      (* should never happen, but we should avoid the segfault *)
      match stats with
      | [st] => inl {| types.Stats := Some st |}
      | _ => inr ("Unknown error happened finding container stats for " +:+ containerID)
      end
  end.

(** [ContainerStats] returns stats of the container.  If the container does
    not exist, the call returns an error. *)
Definition ContainerStats (req : types.ContainerStatsRequest) (s : Server World)
    : (types.ContainerStatsResponse + error) * Server World :=
  match GetContainerFromShortID s (types.ContainerStatsRequest_ContainerID req) with
  | inr err => (inr err, s)
  | inl container =>
      let '(stats, errs, s1) := CRIStatsForContainers [container] s in
      (singleResult (types.ContainerStatsRequest_ContainerID req) stats errs, s1)
  end.

End Server.

(** ** Vocabulary of the statements *)

(** The journal entries that are calls to the runtime. *)
Definition isRuntimeCall (ev : Event) : bool :=
  match ev with
  | Warning _ => false
  | _ => true
  end.

(** The runtime queries a batch calls for: one per container whose sandbox is
    registered, scoped by that sandbox's cgroup parent, in batch order. *)
Definition statsQueries {World : Type} (s : Server World) (l : list oci.Container)
    : list Event :=
  omap (λ c, (λ sb, CallContainerStats (oci.ID c) (sandbox.CgroupParent sb))
               <$> GetSandbox s (oci.Sandbox c)) l.

(** What the server holds apart from the world and the journal. *)
Definition registry {World : Type} (s : Server World) :=
  (containers s, sandboxes s, ctrIDIndex s, Storage s).

(** A value of Go's [int64]. *)
Definition int64 (x : Z) : Prop := - 2 ^ 63 ≤ x < 2 ^ 63.

(** Two requests that agree on every field but [OomScoreAdj]. *)
Definition sameLimits (r r' : types.LinuxContainerResources) : Prop :=
  types.CPUPeriod r = types.CPUPeriod r'
  ∧ types.CPUQuota r = types.CPUQuota r'
  ∧ types.CPUShares r = types.CPUShares r'
  ∧ types.MemoryLimitInBytes r = types.MemoryLimitInBytes r'
  ∧ types.CPUsetCPUs r = types.CPUsetCPUs r'
  ∧ types.CPUsetMems r = types.CPUsetMems r'.

(** A path element that [filepath.Clean] keeps as it is: not empty, not [.],
    not [..], without a separator. *)
Definition isName (e : string) : bool :=
  negb (String.eqb e "") && negb (String.eqb e ".") && negb (String.eqb e "..")
  && negb (filepath.hasSeparator e).

(** The absolute path with the given elements. *)
Definition rootedPath (elems : list string) : string :=
  "/" +:+ String.concat "/" elems.

(** The container a statistics record is about: the ID among its attributes. *)
Definition statsID (st : types.ContainerStats) : option string :=
  types.ID <$> types.Attributes st.

(** ** A test double for the collaborators

    The world of the double is a call counter: every call to the runtime
    increments it.  The double's answers are fixed when it is built: the
    result of an update, the statistics (or the error) per container ID,
    whether swap accounting is available, and the disk usage (or the error)
    per path. *)
Definition double (update : option error)
    (statsOf : string → oci.ContainerStats + error)
    (swap : bool) (disk : string → (Z * Z) + error) : Host nat :=
  {| runtime_ContainerStats c _ n := (statsOf (oci.ID c), S n);
     runtime_UpdateContainer _ _ n := (update, S n);
     node_CgroupHasMemorySwap := swap;
     diskWalk p _ := disk p |}.

Module Fixture.

Definition mkContainer (id sb : string) (st : oci.ContainerStatus) : oci.Container :=
  {| oci.ID := id; oci.Sandbox := sb;
     oci.MountPoint := "/var/lib/containers/storage/overlay/" +:+ id +:+ "/merged";
     oci.metadata := {| oci.Name := "app"; oci.Attempt := 1 |};
     oci.Labels := {[ "io.kubernetes.container.name" := "app" ]};
     oci.Annotations := ∅;
     oci.status := st;
     oci.resources := None |}.

Definition web := mkContainer "0a1b2c" "pod1" oci.Running.
Definition db := mkContainer "3d4e5f" "pod1" oci.Created.
Definition orphan := mkContainer "778899" "gone" oci.Running.
Definition halted := mkContainer "aabbcc" "pod1" oci.Stopped.

Definition pod1 : sandbox.Sandbox :=
  {| sandbox.ID := "pod1"; sandbox.CgroupParent := "/kubepods/pod1" |}.

(** Short IDs resolve by unique prefix among the four containers. *)
Definition index (cid : string) : option string :=
  match filter (λ id, bool_decide (String.prefix cid id = true))
               ["0a1b2c"; "3d4e5f"; "778899"; "aabbcc"] with
  | [id] => Some id
  | _ => None
  end.

Definition server (storage : string) : Server nat :=
  {| containers := list_to_map
       [("0a1b2c", web); ("3d4e5f", db); ("778899", orphan); ("aabbcc", halted)];
     sandboxes := {[ "pod1" := pod1 ]};
     ctrIDIndex := index;
     Storage := storage;
     world := 0%nat;
     journal := [] |}.

Definition raw : oci.ContainerStats :=
  {| oci.SystemNano := 1600000000000000000; oci.CPUNano := 42000;
     oci.WorkingSetBytes := 4096 |}.

Definition limits : types.LinuxContainerResources :=
  {| types.CPUPeriod := 100000; types.CPUQuota := 50000; types.CPUShares := 512;
     types.MemoryLimitInBytes := 268435456; types.OomScoreAdj := 0;
     types.CPUsetCPUs := "0-1"; types.CPUsetMems := "" |}.

Definition unlimited : types.LinuxContainerResources :=
  {| types.CPUPeriod := 0; types.CPUQuota := 0; types.CPUShares := 0;
     types.MemoryLimitInBytes := 0; types.OomScoreAdj := 0;
     types.CPUsetCPUs := "0-3"; types.CPUsetMems := "0" |}.

(** A runtime whose calls all succeed, on a host with swap accounting and a
    readable filesystem. *)
Definition healthy : Host nat :=
  double None (λ _, inl raw) true (λ _, inl (8192, 3)).

(** A runtime that rejects every update. *)
Definition rejecting : Host nat :=
  double (Some "runc update: exit status 1") (λ _, inl raw) true (λ _, inl (8192, 3)).

(** A runtime that cannot read the cgroup of any container. *)
Definition blind : Host nat :=
  double None (λ _, inr "unable to obtain cgroup stats") true (λ _, inl (8192, 3)).

(** A host on which the disk walk fails. *)
Definition unreadable : Host nat :=
  double None (λ _, inl raw) false (λ _, inr "permission denied").

(** A container that is not mounted. *)
Definition unmounted : oci.Container :=
  {| oci.ID := "ddeeff"; oci.Sandbox := "pod1"; oci.MountPoint := "";
     oci.metadata := {| oci.Name := "job"; oci.Attempt := 0 |};
     oci.Labels := ∅; oci.Annotations := ∅;
     oci.status := oci.Created; oci.resources := None |}.

(** A request with negative shares, period and quota. *)
Definition negative : types.LinuxContainerResources :=
  {| types.CPUPeriod := -1; types.CPUQuota := -1; types.CPUShares := -2;
     types.MemoryLimitInBytes := 0; types.OomScoreAdj := 0;
     types.CPUsetCPUs := ""; types.CPUsetMems := "" |}.

(** [limits] with another OOM score adjustment. *)
Definition limitsOom : types.LinuxContainerResources :=
  {| types.CPUPeriod := 100000; types.CPUQuota := 50000; types.CPUShares := 512;
     types.MemoryLimitInBytes := 268435456; types.OomScoreAdj := -998;
     types.CPUsetCPUs := "0-1"; types.CPUsetMems := "" |}.

End Fixture.

(** * Properties *)

(** ** Paths and substrings on examples *)

Example Dir_merged :
  filepath.Join [filepath.Dir "/var/lib/containers/storage/overlay/0a1b/merged"; "diff"]
  = "/var/lib/containers/storage/overlay/0a1b/diff".
Proof. vm_compute. reflexivity. Qed.

Example Clean_cases :
  map filepath.Clean [""; "/"; "a//b/./c/.."; "/../a"; "../../a/.."; "a/.."; "/a/b/"]
  = ["."; "/"; "a/b"; "/a"; "../.."; "."; "/a/b"].
Proof. vm_compute. reflexivity. Qed.

Example Dir_cases :
  map filepath.Dir ["merged"; "/merged"; "/a/b/"; ""; "//"; "a/b"]
  = ["."; "/"; "/a/b"; "."; "/"; "a"].
Proof. vm_compute. reflexivity. Qed.

Example Contains_cases :
  map (Contains "sandbox sb1 not found") ["sb1"; ""; "sb2"; "found"; "not  found"]
  = [true; true; false; true; false].
Proof. vm_compute. reflexivity. Qed.

(** ** Substrings *)

Lemma append_assoc (a b c : string) : (a +:+ b) +:+ c = a +:+ b +:+ c.
Proof.
  induction a as [|x a IH]; [done|].
  change (String x ((a +:+ b) +:+ c) = String x (a +:+ b +:+ c)).
  by rewrite IH.
Qed.

Lemma prefix_app (p rest : string) : String.prefix p (p +:+ rest) = true.
Proof.
  induction p as [|a p IH]; simpl.
  - by destruct rest.
  - destruct (ascii_dec a a); [exact IH | congruence].
Qed.

Lemma prefix_split (p s : string) :
  String.prefix p s = true → ∃ rest, s = p +:+ rest.
Proof.
  revert s. induction p as [|a p IH]; intros s Hp.
  - by exists s.
  - destruct s as [|b s]; simpl in Hp; [done|].
    destruct (ascii_dec a b) as [->|]; [|done].
    destruct (IH _ Hp) as [rest ->]. by exists rest.
Qed.

(** [Contains] decides the occurrence of a substring. *)
Lemma Contains_spec (s substr : string) :
  Contains s substr = true ↔ ∃ before after, s = before +:+ substr +:+ after.
Proof.
  split.
  - induction s as [|a s IH]; cbn [Contains]; intros Hc.
    + apply orb_true_iff in Hc as [Hp|]; [|done].
      destruct (prefix_split _ _ Hp) as [rest ->]. by exists "", rest.
    + apply orb_true_iff in Hc as [Hp|Hc].
      * destruct (prefix_split _ _ Hp) as [rest ->]. by exists "", rest.
      * destruct (IH Hc) as (before & after & ->).
        by exists (String a before), after.
  - intros (before & after & ->).
    induction before as [|a before IH].
    + change ("" +:+ substr +:+ after) with (substr +:+ after).
      destruct (substr +:+ after) eqn:E; cbn [Contains]; rewrite <- E, prefix_app; done.
    + change (String a before +:+ substr +:+ after)
        with (String a (before +:+ substr +:+ after)).
      cbn [Contains]. rewrite IH. apply orb_true_r.
Qed.

Lemma Contains_middle (before substr after : string) :
  Contains (before +:+ substr +:+ after) substr = true.
Proof. apply Contains_spec. eauto. Qed.

Section Properties.

Context {World : Type} `{!Host World}.

(** ** Resource conversion *)

(** C3: a request whose CPU shares, CPU period, CPU quota and memory limit
    are all zero converts to a spec in which no optional numeric field is
    set, in the CPU section or in the memory section; the CPU-set strings
    are copied as they are, empty or not. *)
Theorem toOCIResources_all_zero (r : types.LinuxContainerResources) :
  types.CPUShares r = 0 →
  types.CPUPeriod r = 0 →
  types.CPUQuota r = 0 →
  types.MemoryLimitInBytes r = 0 →
  toOCIResources r =
    {| rspec.CPU := Some
         {| rspec.Shares := None; rspec.Quota := None; rspec.Period := None;
            rspec.RealtimeRuntime := None; rspec.RealtimePeriod := None;
            rspec.Cpus := types.CPUsetCPUs r;
            rspec.Mems := types.CPUsetMems r |};
       rspec.Memory := Some
         {| rspec.Limit := None; rspec.Reservation := None; rspec.Swap := None;
            rspec.Kernel := None; rspec.KernelTCP := None;
            rspec.Swappiness := None; rspec.DisableOOMKiller := None |} |}.
Proof.
  intros Hs Hp Hq Hm. unfold toOCIResources.
  rewrite Hs, Hp, Hq, Hm. reflexivity.
Qed.

(** The CPU-set strings are copied whatever the numeric fields are. *)
Lemma toOCIResources_cpuset (r : types.LinuxContainerResources) :
  ∃ cpu, rspec.CPU (toOCIResources r) = Some cpu
         ∧ rspec.Cpus cpu = types.CPUsetCPUs r
         ∧ rspec.Mems cpu = types.CPUsetMems r.
Proof. eexists. split; [reflexivity|]. done. Qed.

(** C4: the memory section of the converted spec is always there; with a
    non-zero memory limit its swap field is absent when the host has no swap
    accounting and equals the memory limit when it has; with a zero memory
    limit the swap field is absent either way. *)
Theorem toOCIResources_swap (r : types.LinuxContainerResources) :
  ∃ mem, rspec.Memory (toOCIResources r) = Some mem
    ∧ (types.MemoryLimitInBytes r ≠ 0 → node_CgroupHasMemorySwap = false →
         rspec.Swap mem = None)
    ∧ (types.MemoryLimitInBytes r ≠ 0 → node_CgroupHasMemorySwap = true →
         rspec.Swap mem = Some (types.MemoryLimitInBytes r))
    ∧ (types.MemoryLimitInBytes r = 0 → rspec.Swap mem = None).
Proof.
  eexists. split; [reflexivity|]. simpl.
  repeat split.
  - intros Hm Hswap. rewrite Hswap. by case_decide.
  - intros Hm Hswap. rewrite Hswap. by case_decide.
  - intros Hm. by case_decide.
Qed.

(** ** Resource updates *)

(** C1: on a live container and a request with a Linux section, the result
    of [UpdateContainerResources] is the result of the runtime's update call.
    When that call fails, its error is returned as it is and the registry,
    hence the container's resource snapshot, is what it was before the call.
    When it succeeds, the snapshot of the container is replaced by the
    converted spec.  Either way the runtime was called exactly once, with
    the converted spec. *)
Theorem UpdateContainerResources_runtime_result
    (req : types.UpdateContainerResourcesRequest) (s : Server World)
    (c : oci.Container) (linux : types.LinuxContainerResources)
    (r : option error) (w : World) :
  GetContainerFromShortID s (types.ContainerID req) = inl c →
  oci.IsAlive c = None →
  types.Linux req = Some linux →
  runtime_UpdateContainer c (toOCIResources linux) (world s) = (r, w) →
  ∃ s', UpdateContainerResources req s = (r, s')
    ∧ world s' = w
    ∧ journal s' = journal s ++ [CallUpdateContainer (oci.ID c) (toOCIResources linux)]
    ∧ (is_Some r → containers s' = containers s)
    ∧ (r = None →
         containers s' =
           alter (λ c', oci.withResources c' (Some (toOCIResources linux)))
                 (oci.ID c) (containers s)).
Proof.
  intros Hc Halive Hlinux Hrt.
  unfold UpdateContainerResources, Runtime_UpdateContainer.
  rewrite Hc, Halive, Hlinux, Hrt.
  destruct r as [err|]; eexists; (split; [reflexivity|]); simpl.
  - split_and!; [done | done | done | intros [=]].
  - split_and!; [done | done | intros [? [=]] | done].
Qed.

(** C2: a container that is neither created nor running fails the liveness
    check, [UpdateContainerResources] returns the precondition error, and
    the server with its world and journal is what it was: the runtime was
    not called and nothing was written. *)
Theorem UpdateContainerResources_not_alive
    (req : types.UpdateContainerResourcesRequest) (s : Server World)
    (c : oci.Container) :
  GetContainerFromShortID s (types.ContainerID req) = inl c →
  oci.status c ≠ oci.Created →
  oci.status c ≠ oci.Running →
  ∃ err, oci.IsAlive c = Some err
    ∧ UpdateContainerResources req s
      = (Some ("container is not created or running: " +:+ err), s).
Proof.
  intros Hc Hcr Hrun. unfold UpdateContainerResources. rewrite Hc.
  unfold oci.IsAlive. destruct (oci.status c); try done; eauto.
Qed.

(** C10: on a live container, a request without a Linux section succeeds
    and leaves the server, its world and its journal as they were: no
    runtime call, no change of any resource snapshot. *)
Theorem UpdateContainerResources_no_linux
    (req : types.UpdateContainerResourcesRequest) (s : Server World)
    (c : oci.Container) :
  GetContainerFromShortID s (types.ContainerID req) = inl c →
  oci.IsAlive c = None →
  types.Linux req = None →
  UpdateContainerResources req s = (None, s).
Proof.
  intros Hc Halive Hlinux. unfold UpdateContainerResources.
  by rewrite Hc, Halive, Hlinux.
Qed.

End Properties.

(** ** Statistics *)

Section StatsProperties.

Context {World : Type} `{!Host World}.

Implicit Types (s : Server World) (c : oci.Container) (raw : oci.ContainerStats).

Lemma Runtime_ContainerStats_eq c cgroup s r w :
  runtime_ContainerStats c cgroup (world s) = (r, w) →
  Runtime_ContainerStats c cgroup s
  = (r, record (CallContainerStats (oci.ID c) cgroup) w s).
Proof. intros Hrt. unfold Runtime_ContainerStats. by rewrite Hrt. Qed.

Lemma Runtime_ContainerStats_sandboxes c cgroup s :
  sandboxes (Runtime_ContainerStats c cgroup s).2 = sandboxes s.
Proof.
  unfold Runtime_ContainerStats.
  by destruct (runtime_ContainerStats c cgroup (world s)).
Qed.

(** The sections that [buildContainerStats] fills in whatever the storage
    driver is. *)
Lemma buildContainerStats_sections raw c s :
  statsID (buildContainerStats raw c s).1 = Some (oci.ID c)
  ∧ types.CPU (buildContainerStats raw c s).1
    = Some {| types.CPUUsage_Timestamp := oci.SystemNano raw;
              types.UsageCoreNanoSeconds := Some {| types.Value := oci.CPUNano raw |} |}
  ∧ types.Memory (buildContainerStats raw c s).1
    = Some {| types.MemoryUsage_Timestamp := oci.SystemNano raw;
              types.WorkingSetBytes :=
                Some {| types.Value := oci.WorkingSetBytes raw |} |}.
Proof.
  unfold buildContainerStats. case_decide; [|done].
  by destruct (GetDiskUsageStats _ _) as [[bytesUsed inodeUsed] [e|]].
Qed.

(** [buildContainerStats] writes to the log at most; the registries, the
    configuration and the world are not touched. *)
Lemma buildContainerStats_frame raw c s :
  sandboxes (buildContainerStats raw c s).2 = sandboxes s
  ∧ containers (buildContainerStats raw c s).2 = containers s
  ∧ Storage (buildContainerStats raw c s).2 = Storage s
  ∧ world (buildContainerStats raw c s).2 = world s.
Proof.
  unfold buildContainerStats. case_decide; [|done].
  by destruct (GetDiskUsageStats _ _) as [[bytesUsed inodeUsed] [e|]].
Qed.

Lemma buildContainerStats_not_overlay raw c s :
  Storage s ≠ "overlay" →
  types.WritableLayer (buildContainerStats raw c s).1 = None
  ∧ (buildContainerStats raw c s).2 = s.
Proof. intros Hst. unfold buildContainerStats. by case_decide. Qed.

Lemma buildContainerStats_probe_failed raw c s e :
  Storage s = "overlay" →
  diskWalk (filepath.Join [filepath.Dir (oci.MountPoint c); "diff"]) (world s) = inr e →
  types.WritableLayer (buildContainerStats raw c s).1
  = Some {| types.FilesystemUsage_Timestamp := oci.SystemNano raw;
            types.FsID := Some {| types.Mountpoint := oci.MountPoint c |};
            types.UsedBytes := Some {| types.Value := 0 |};
            types.InodesUsed := Some {| types.Value := 0 |} |}
  ∧ (buildContainerStats raw c s).2
    = log_Warnf ("unable to get disk usage for container "
                 +:+ oci.ID c +:+ "， " +:+ e) s.
Proof.
  intros Hst Hwalk. unfold buildContainerStats, GetDiskUsageStats.
  case_decide; [|done]. by rewrite Hwalk.
Qed.

(** The loop over a concatenation is the loop over the first part followed
    by the loop over the second, started from what the first left. *)
Lemma statsLoop_app (l1 l2 : list oci.Container) stats errs s :
  statsLoop (l1 ++ l2) stats errs s
  = let '(stats1, errs1, s1) := statsLoop l1 stats errs s in
    statsLoop l2 stats1 errs1 s1.
Proof.
  revert stats errs s.
  induction l1 as [|c l1 IH]; intros stats errs s; [done|].
  cbn [app statsLoop].
  destruct (GetSandbox s (oci.Sandbox c)) as [sb|]; [|apply IH].
  destruct (Runtime_ContainerStats c (sandbox.CgroupParent sb) s) as [[ociStat|err] s1];
    [|apply IH].
  destruct (buildContainerStats ociStat c s1) as [st s2]. apply IH.
Qed.

(** The loop never changes the sandbox registry. *)
Lemma statsLoop_sandboxes (l : list oci.Container) stats errs s :
  sandboxes (statsLoop l stats errs s).2 = sandboxes s.
Proof.
  revert stats errs s.
  induction l as [|c l IH]; intros stats errs s; [done|].
  cbn [statsLoop].
  destruct (GetSandbox s (oci.Sandbox c)) as [sb|]; [|apply IH].
  pose proof (Runtime_ContainerStats_sandboxes c (sandbox.CgroupParent sb) s) as Hrt.
  destruct (Runtime_ContainerStats c (sandbox.CgroupParent sb) s) as [[ociStat|err] s1];
    simpl in Hrt; [|by rewrite IH].
  pose proof (buildContainerStats_frame ociStat c s1) as (Hb & _).
  destruct (buildContainerStats ociStat c s1) as [st s2]; simpl in Hb.
  rewrite IH. congruence.
Qed.

(** Over containers whose sandbox resolves and whose runtime query succeeds
    in every world, the loop appends one record per container, in order, and
    no error. *)
Lemma statsLoop_all_succeed (l : list oci.Container) stats errs s :
  (∀ c, c ∈ l → ∃ sb, GetSandbox s (oci.Sandbox c) = Some sb
      ∧ ∀ w, ∃ raw w', runtime_ContainerStats c (sandbox.CgroupParent sb) w = (inl raw, w')) →
  ∃ new s', statsLoop l stats errs s = (stats ++ new, errs, s')
    ∧ map statsID new = map (λ c, Some (oci.ID c)) l
    ∧ sandboxes s' = sandboxes s.
Proof.
  revert stats errs s.
  induction l as [|c l IH]; intros stats errs s Hall.
  - exists [], s. by rewrite app_nil_r.
  - destruct (Hall c) as (sb & Hsb & Hrt); [left|].
    destruct (Hrt (world s)) as (raw & w' & Hq).
    cbn [statsLoop]. rewrite Hsb, (Runtime_ContainerStats_eq _ _ _ _ _ Hq).
    pose proof (buildContainerStats_sections raw c
                  (record (CallContainerStats (oci.ID c) (sandbox.CgroupParent sb)) w' s))
      as (Hid & _).
    pose proof (buildContainerStats_frame raw c
                  (record (CallContainerStats (oci.ID c) (sandbox.CgroupParent sb)) w' s))
      as (Hsbs & _).
    destruct (buildContainerStats raw c _) as [st s2]; simpl in Hid, Hsbs.
    destruct (IH (stats ++ [st]) errs s2) as (new & s' & Hloop & Hids & Hframe).
    { intros c' Hc'. destruct (Hall c') as (sb' & Hsb' & Hrt'); [by right|].
      exists sb'. split; [|done]. unfold GetSandbox in *. by rewrite Hsbs. }
    exists (st :: new), s'. split_and!.
    + by rewrite Hloop, <- app_assoc.
    + simpl. by rewrite Hid, Hids.
    + by rewrite Hframe.
Qed.

(** Every error the loop appends is either the sandbox-not-found error of a
    container of the batch whose sandbox does not resolve, or the very error
    the runtime returned for a container of the batch. *)
Lemma statsLoop_errs (l : list oci.Container) stats errs s :
  ∃ new, (statsLoop l stats errs s).1.2 = errs ++ new
    ∧ ∀ e, e ∈ new →
        (∃ c, c ∈ l ∧ GetSandbox s (oci.Sandbox c) = None ∧ e = sandboxNotFound c)
        ∨ (∃ c sb w w', c ∈ l ∧ GetSandbox s (oci.Sandbox c) = Some sb
             ∧ runtime_ContainerStats c (sandbox.CgroupParent sb) w = (inr e, w')).
Proof.
  revert stats errs s.
  induction l as [|c l IH]; intros stats errs s.
  - exists []. split; [by rewrite app_nil_r | by intros e ?%elem_of_nil].
  - cbn [statsLoop].
    destruct (GetSandbox s (oci.Sandbox c)) as [sb|] eqn:Hsb.
    + pose proof (Runtime_ContainerStats_sandboxes c (sandbox.CgroupParent sb) s) as Hfr.
      unfold Runtime_ContainerStats in *.
      destruct (runtime_ContainerStats c (sandbox.CgroupParent sb) (world s))
        as [[ociStat|err] w] eqn:Hq; simpl in Hfr.
      * pose proof (buildContainerStats_frame ociStat c
          (record (CallContainerStats (oci.ID c) (sandbox.CgroupParent sb)) w s))
          as (Hb & _).
        destruct (buildContainerStats ociStat c _) as [st s2]; simpl in Hb.
        destruct (IH (stats ++ [st]) errs s2) as (new & Hnew & Hall).
        exists new. split; [done|]. intros e He.
        unfold GetSandbox in *. rewrite Hb in Hall.
        destruct (Hall e He) as [(c' & ? & ? & ?)|(c' & sb' & w1 & w2 & ? & ? & ?)].
        -- left. exists c'. split_and!; [by right | done | done].
        -- right. exists c', sb', w1, w2. split_and!; [by right | done | done].
      * destruct (IH stats (errs ++ [err])
          (record (CallContainerStats (oci.ID c) (sandbox.CgroupParent sb)) w s))
          as (new & Hnew & Hall).
        exists (err :: new). split; [by rewrite Hnew, <- app_assoc|].
        intros e [->|He]%elem_of_cons.
        -- right. exists c, sb, (world s), w. split_and!; [left | done | done].
        -- unfold GetSandbox in *. simpl in Hall.
           destruct (Hall e He) as [(c' & ? & ? & ?)|(c' & sb' & w1 & w2 & ? & ? & ?)].
           ++ left. exists c'. split_and!; [by right | done | done].
           ++ right. exists c', sb', w1, w2. split_and!; [by right | done | done].
    + destruct (IH stats (errs ++ [sandboxNotFound c]) s) as (new & Hnew & Hall).
      exists (sandboxNotFound c :: new). split; [by rewrite Hnew, <- app_assoc|].
      intros e [->|He]%elem_of_cons.
      * left. exists c. split_and!; [left | done | done].
      * destruct (Hall e He) as [(c' & ? & ? & ?)|(c' & sb' & w1 & w2 & ? & ? & ?)].
        -- left. exists c'. split_and!; [by right | done | done].
        -- right. exists c', sb', w1, w2. split_and!; [by right | done | done].
Qed.

(** The sandbox-not-found error names the container and the sandbox. *)
Lemma sandboxNotFound_names c :
  Contains (sandboxNotFound c) (oci.ID c) = true
  ∧ Contains (sandboxNotFound c) (oci.Sandbox c) = true.
Proof.
  split; [apply Contains_middle|].
  apply Contains_spec.
  exists ("unable to get stats for container " +:+ oci.ID c +:+ ": sandbox "), " not found".
  unfold sandboxNotFound.
  by rewrite !append_assoc.
Qed.

(** A single container whose sandbox resolves and whose runtime query
    succeeds: the entry point returns the record that [buildContainerStats]
    assembles, after one call to the runtime. *)
Lemma ContainerStats_success (req : types.ContainerStatsRequest) s c
    (sb : sandbox.Sandbox) raw (w : World) :
  GetContainerFromShortID s (types.ContainerStatsRequest_ContainerID req) = inl c →
  GetSandbox s (oci.Sandbox c) = Some sb →
  runtime_ContainerStats c (sandbox.CgroupParent sb) (world s) = (inl raw, w) →
  ContainerStats req s
  = let s1 := record (CallContainerStats (oci.ID c) (sandbox.CgroupParent sb)) w s in
    (inl {| types.Stats := Some (buildContainerStats raw c s1).1 |},
     (buildContainerStats raw c s1).2).
Proof.
  intros Hc Hsb Hq. unfold ContainerStats, CRIStatsForContainers.
  rewrite Hc. cbn [statsLoop].
  rewrite Hsb, (Runtime_ContainerStats_eq _ _ _ _ _ Hq).
  by destruct (buildContainerStats raw c _) as [st s2].
Qed.

(** C5: in a batch where the sandbox of exactly one container does not
    resolve, while every other container has a sandbox and a runtime query
    that succeeds, the batch call returns one record for each of the other
    containers (N-1 records, in input order, each for its own container) and
    exactly one error, whose message contains the ID of the container without
    a sandbox.  The containers after the failing one are processed like the
    ones before it. *)
Theorem CRIStatsForContainers_one_sandbox_missing
    (pre post : list oci.Container) c s :
  GetSandbox s (oci.Sandbox c) = None →
  (∀ c', c' ∈ pre ++ post →
     ∃ sb, GetSandbox s (oci.Sandbox c') = Some sb
       ∧ ∀ w, ∃ raw w',
           runtime_ContainerStats c' (sandbox.CgroupParent sb) w = (inl raw, w')) →
  ∃ stats e s',
    CRIStatsForContainers (pre ++ c :: post) s = (stats, [e], s')
    ∧ length stats = (length (pre ++ c :: post) - 1)%nat
    ∧ map statsID stats = map (λ c', Some (oci.ID c')) (pre ++ post)
    ∧ Contains e (oci.ID c) = true.
Proof.
  intros Hnone Hall. unfold CRIStatsForContainers.
  rewrite statsLoop_app.
  destruct (statsLoop_all_succeed pre [] [] s) as (new1 & s1 & -> & Hids1 & Hfr1).
  { intros c' Hc'. apply Hall, elem_of_app. by left. }
  cbn [statsLoop]. unfold GetSandbox in *. rewrite Hfr1, Hnone.
  destruct (statsLoop_all_succeed post ([] ++ new1) ([] ++ [sandboxNotFound c]) s1)
    as (new2 & s2 & -> & Hids2 & Hfr2).
  { intros c' Hc'. unfold GetSandbox. rewrite Hfr1. apply Hall, elem_of_app. by right. }
  exists (new1 ++ new2), (sandboxNotFound c), s2.
  assert (map statsID (new1 ++ new2) = map (λ c', Some (oci.ID c')) (pre ++ post)) as Hids.
  { by rewrite !map_app, Hids1, Hids2. }
  split_and!; [done | | done | apply sandboxNotFound_names].
  apply (f_equal length) in Hids. rewrite !length_map in Hids.
  rewrite Hids, !length_app. simpl. lia.
Qed.

(** C6: once the container is resolved, the single-container entry point
    returns what [singleResult] makes of the two slices the batch call
    returned for that one container.  Whatever the slices are: if there is an
    error, the first one is returned and the records are dropped; if there is
    none and the records are not exactly one, the internal-consistency error
    is returned and no data. *)
Theorem ContainerStats_single_result (req : types.ContainerStatsRequest) s c :
  GetContainerFromShortID s (types.ContainerStatsRequest_ContainerID req) = inl c →
  (∃ stats errs s1,
      CRIStatsForContainers [c] s = (stats, errs, s1)
      ∧ ContainerStats req s
        = (singleResult (types.ContainerStatsRequest_ContainerID req) stats errs, s1))
  ∧ ∀ (stats : list types.ContainerStats) (errs : list error),
      (∀ e rest, errs = e :: rest →
         singleResult (types.ContainerStatsRequest_ContainerID req) stats errs = inr e)
      ∧ (errs = [] → length stats ≠ 1%nat →
         singleResult (types.ContainerStatsRequest_ContainerID req) stats errs
         = inr ("Unknown error happened finding container stats for "
                +:+ types.ContainerStatsRequest_ContainerID req)).
Proof.
  intros Hc. split.
  - unfold ContainerStats. rewrite Hc.
    destruct (CRIStatsForContainers [c] s) as [[stats errs] s1]. by exists stats, errs, s1.
  - intros stats errs. split.
    + by intros e rest ->.
    + intros -> Hlen. by destruct stats as [|st [|st' stats]].
Qed.

(** C7: for a container with a resolvable sandbox and a successful runtime
    query, the entry point returns a record whose CPU and memory sections are
    present, filled from the runtime's statistics, and whose writable-layer
    section is absent whenever the storage driver is not overlay. *)
Theorem ContainerStats_sections (req : types.ContainerStatsRequest) s c
    (sb : sandbox.Sandbox) raw (w : World) :
  GetContainerFromShortID s (types.ContainerStatsRequest_ContainerID req) = inl c →
  GetSandbox s (oci.Sandbox c) = Some sb →
  runtime_ContainerStats c (sandbox.CgroupParent sb) (world s) = (inl raw, w) →
  ∃ st s', ContainerStats req s = (inl {| types.Stats := Some st |}, s')
    ∧ types.CPU st
      = Some {| types.CPUUsage_Timestamp := oci.SystemNano raw;
                types.UsageCoreNanoSeconds := Some {| types.Value := oci.CPUNano raw |} |}
    ∧ types.Memory st
      = Some {| types.MemoryUsage_Timestamp := oci.SystemNano raw;
                types.WorkingSetBytes :=
                  Some {| types.Value := oci.WorkingSetBytes raw |} |}
    ∧ (Storage s ≠ "overlay" → types.WritableLayer st = None).
Proof.
  intros Hc Hsb Hq. rewrite (ContainerStats_success _ _ _ _ _ _ Hc Hsb Hq). cbn zeta.
  set (s1 := record _ w s).
  destruct (buildContainerStats_sections raw c s1) as (_ & Hcpu & Hmem).
  eexists _, _. split_and!; [reflexivity | done | done |].
  intros Hst. by apply buildContainerStats_not_overlay.
Qed.

(** C8: on the overlay driver, when the disk walk of dirname(mountpoint)/diff
    fails, the entry point still returns a record; its writable-layer section
    is present with zero bytes and zero inodes used, and the only things done
    are the runtime query and one warning that names the container and
    carries the walk's error. *)
Theorem ContainerStats_probe_failed (req : types.ContainerStatsRequest) s c
    (sb : sandbox.Sandbox) raw (w : World) (e : error) :
  GetContainerFromShortID s (types.ContainerStatsRequest_ContainerID req) = inl c →
  GetSandbox s (oci.Sandbox c) = Some sb →
  runtime_ContainerStats c (sandbox.CgroupParent sb) (world s) = (inl raw, w) →
  Storage s = "overlay" →
  diskWalk (filepath.Join [filepath.Dir (oci.MountPoint c); "diff"]) w = inr e →
  ∃ st s', ContainerStats req s = (inl {| types.Stats := Some st |}, s')
    ∧ types.WritableLayer st
      = Some {| types.FilesystemUsage_Timestamp := oci.SystemNano raw;
                types.FsID := Some {| types.Mountpoint := oci.MountPoint c |};
                types.UsedBytes := Some {| types.Value := 0 |};
                types.InodesUsed := Some {| types.Value := 0 |} |}
    ∧ journal s'
      = journal s
        ++ [CallContainerStats (oci.ID c) (sandbox.CgroupParent sb);
            Warning ("unable to get disk usage for container "
                     +:+ oci.ID c +:+ "， " +:+ e)].
Proof.
  intros Hc Hsb Hq Hst Hwalk.
  rewrite (ContainerStats_success _ _ _ _ _ _ Hc Hsb Hq). cbn zeta.
  set (s1 := record _ w s).
  destruct (buildContainerStats_probe_failed raw c s1 e) as (Hwl & Hs'); [done | done |].
  eexists _, _. split_and!; [reflexivity | done |].
  rewrite Hs'. simpl. by rewrite <- app_assoc.
Qed.

(** C9, as the code has it: an error of the batch call is either the
    sandbox-not-found error of one of the batch's containers, and then its
    message contains that container's ID, or it is the error that the runtime
    returned for one of the batch's containers, appended as it is. *)
Theorem CRIStatsForContainers_errors (l : list oci.Container) s (e : error) :
  e ∈ (CRIStatsForContainers l s).1.2 →
  (∃ c, c ∈ l ∧ GetSandbox s (oci.Sandbox c) = None
     ∧ e = sandboxNotFound c ∧ Contains e (oci.ID c) = true)
  ∨ (∃ c sb w w', c ∈ l ∧ GetSandbox s (oci.Sandbox c) = Some sb
       ∧ runtime_ContainerStats c (sandbox.CgroupParent sb) w = (inr e, w')).
Proof.
  unfold CRIStatsForContainers.
  destruct (statsLoop_errs l [] [] s) as (new & -> & Hall).
  intros He. destruct (Hall e He) as [(c & ? & ? & ->)|Hrt]; [|by right].
  left. exists c. split_and!; [done | done | done | apply sandboxNotFound_names].
Qed.

End StatsProperties.

(** * The properties on the test double *)

(** C3 on a request that only pins CPUs: nothing numeric is set. *)
Lemma toOCIResources_all_zero_witness :
  @toOCIResources nat Fixture.unreadable Fixture.unlimited =
    {| rspec.CPU := Some
         {| rspec.Shares := None; rspec.Quota := None; rspec.Period := None;
            rspec.RealtimeRuntime := None; rspec.RealtimePeriod := None;
            rspec.Cpus := "0-3"; rspec.Mems := "0" |};
       rspec.Memory := Some
         {| rspec.Limit := None; rspec.Reservation := None; rspec.Swap := None;
            rspec.Kernel := None; rspec.KernelTCP := None;
            rspec.Swappiness := None; rspec.DisableOOMKiller := None |} |}.
Proof.
  apply (@toOCIResources_all_zero nat Fixture.unreadable Fixture.unlimited);
    reflexivity.
Defined.

(** C4 on a 256 MiB limit, with and without swap accounting. *)
Example toOCIResources_swap_cases :
  rspec.Swap <$> rspec.Memory (@toOCIResources nat Fixture.healthy Fixture.limits)
    = Some (Some 268435456)
  ∧ rspec.Swap <$> rspec.Memory (@toOCIResources nat Fixture.unreadable Fixture.limits)
    = Some None
  ∧ rspec.Swap <$> rspec.Memory (@toOCIResources nat Fixture.healthy Fixture.unlimited)
    = Some None.
Proof. by vm_compute. Qed.

(** [uint64] wraps a negative share count around. *)
Example toOCIResources_negative_shares :
  rspec.Shares <$> rspec.CPU (@toOCIResources nat Fixture.healthy
    {| types.CPUPeriod := 0; types.CPUQuota := -1; types.CPUShares := -1;
       types.MemoryLimitInBytes := 0; types.OomScoreAdj := 0;
       types.CPUsetCPUs := ""; types.CPUsetMems := "" |})
  = Some (Some 18446744073709551615).
Proof. by vm_compute. Qed.

(** C1 on a runtime that rejects the update: the error comes back, the
    runtime was called once, the registry is unchanged. *)
Lemma UpdateContainerResources_runtime_result_witness :
  ∃ s', @UpdateContainerResources nat Fixture.rejecting
          {| types.ContainerID := "0a"; types.Linux := Some Fixture.limits |}
          (Fixture.server "overlay")
        = (Some "runc update: exit status 1", s')
    ∧ world s' = 1%nat
    ∧ containers s' = containers (Fixture.server "overlay").
Proof.
  destruct (@UpdateContainerResources_runtime_result nat Fixture.rejecting
              {| types.ContainerID := "0a"; types.Linux := Some Fixture.limits |}
              (Fixture.server "overlay") Fixture.web Fixture.limits
              (Some "runc update: exit status 1") 1%nat)
    as (s' & Hres & Hw & _ & Hfail & _);
    [vm_compute; reflexivity | reflexivity | reflexivity | reflexivity |].
  exists s'. split; [exact Hres|]. split; [exact Hw|].
  apply Hfail. eexists. reflexivity.
Defined.

(** C1 on a runtime that accepts the update: the snapshot is the converted
    spec. *)
Example UpdateContainerResources_applied :
  oci.resources <$>
    containers (@UpdateContainerResources nat Fixture.healthy
                  {| types.ContainerID := "0a"; types.Linux := Some Fixture.limits |}
                  (Fixture.server "overlay")).2 !! "0a1b2c"
  = Some (Some (@toOCIResources nat Fixture.healthy Fixture.limits)).
Proof. by vm_compute. Qed.

(** C2 on a stopped container: the call counter of the double stays at 0. *)
Lemma UpdateContainerResources_not_alive_witness :
  ∃ err, oci.IsAlive Fixture.halted = Some err
    ∧ @UpdateContainerResources nat Fixture.healthy
        {| types.ContainerID := "aabb"; types.Linux := Some Fixture.limits |}
        (Fixture.server "overlay")
      = (Some ("container is not created or running: " +:+ err),
         Fixture.server "overlay").
Proof.
  apply (@UpdateContainerResources_not_alive nat Fixture.healthy
           {| types.ContainerID := "aabb"; types.Linux := Some Fixture.limits |}
           (Fixture.server "overlay") Fixture.halted);
    [vm_compute; reflexivity | discriminate | discriminate].
Defined.

(** C10 on a running container and a request without a Linux section. *)
Lemma UpdateContainerResources_no_linux_witness :
  @UpdateContainerResources nat Fixture.rejecting
    {| types.ContainerID := "0a1b2c"; types.Linux := None |}
    (Fixture.server "overlay")
  = (None, Fixture.server "overlay").
Proof.
  apply (@UpdateContainerResources_no_linux nat Fixture.rejecting
           {| types.ContainerID := "0a1b2c"; types.Linux := None |}
           (Fixture.server "overlay") Fixture.web);
    [vm_compute; reflexivity | reflexivity | reflexivity].
Defined.

(** C5 on a batch of three whose middle container has lost its sandbox. *)
Lemma CRIStatsForContainers_one_sandbox_missing_witness :
  ∃ stats e s',
    @CRIStatsForContainers nat Fixture.healthy
      ([Fixture.web] ++ Fixture.orphan :: [Fixture.db]) (Fixture.server "overlay")
    = (stats, [e], s')
    ∧ length stats = (length ([Fixture.web] ++ Fixture.orphan :: [Fixture.db]) - 1)%nat
    ∧ map statsID stats
      = map (λ c', Some (oci.ID c')) ([Fixture.web] ++ [Fixture.db])
    ∧ Contains e (oci.ID Fixture.orphan) = true.
Proof.
  apply (@CRIStatsForContainers_one_sandbox_missing nat Fixture.healthy
           [Fixture.web] [Fixture.db] Fixture.orphan (Fixture.server "overlay")).
  - vm_compute; reflexivity.
  - intros c' Hc'. exists Fixture.pod1.
    apply list_elem_of_In in Hc'. simpl in Hc'.
    destruct Hc' as [<-|[<-|[]]];
      (split; [vm_compute; reflexivity | intros w; by eexists _, _]).
Defined.

Example CRIStatsForContainers_batch :
  (@CRIStatsForContainers nat Fixture.healthy
     [Fixture.web; Fixture.orphan; Fixture.db] (Fixture.server "vfs")).1
  = (map (λ c, (@buildContainerStats nat Fixture.healthy Fixture.raw c
                  (Fixture.server "vfs")).1) [Fixture.web; Fixture.db],
     ["unable to get stats for container 778899: sandbox gone not found"]).
Proof. by vm_compute. Qed.

(** C6 on a runtime whose query fails: the entry point returns that error. *)
Lemma ContainerStats_single_result_witness :
  ∃ stats errs s1,
    @CRIStatsForContainers nat Fixture.blind [Fixture.web] (Fixture.server "overlay")
    = (stats, errs, s1)
    ∧ @ContainerStats nat Fixture.blind
        {| types.ContainerStatsRequest_ContainerID := "0a" |} (Fixture.server "overlay")
      = (singleResult "0a" stats errs, s1).
Proof.
  apply (@ContainerStats_single_result nat Fixture.blind
           {| types.ContainerStatsRequest_ContainerID := "0a" |}
           (Fixture.server "overlay") Fixture.web).
  vm_compute; reflexivity.
Defined.

Example singleResult_cases :
  let st := (@buildContainerStats nat Fixture.healthy Fixture.raw Fixture.web
               (Fixture.server "vfs")).1 in
  singleResult "0a" [st] ["first"; "second"] = inr "first"
  ∧ singleResult "0a" [] [] = inr "Unknown error happened finding container stats for 0a"
  ∧ singleResult "0a" [st; st] []
    = inr "Unknown error happened finding container stats for 0a"
  ∧ singleResult "0a" [st] [] = inl {| types.Stats := Some st |}.
Proof. by vm_compute. Qed.

Example ContainerStats_runtime_error :
  (@ContainerStats nat Fixture.blind
     {| types.ContainerStatsRequest_ContainerID := "0a" |} (Fixture.server "overlay")).1
  = inr "unable to obtain cgroup stats".
Proof. by vm_compute. Qed.

(** C7 on a server whose storage driver is vfs. *)
Lemma ContainerStats_sections_witness :
  ∃ st s',
    @ContainerStats nat Fixture.healthy
      {| types.ContainerStatsRequest_ContainerID := "3d4" |} (Fixture.server "vfs")
    = (inl {| types.Stats := Some st |}, s')
    ∧ types.CPU st
      = Some {| types.CPUUsage_Timestamp := 1600000000000000000;
                types.UsageCoreNanoSeconds := Some {| types.Value := 42000 |} |}
    ∧ types.Memory st
      = Some {| types.MemoryUsage_Timestamp := 1600000000000000000;
                types.WorkingSetBytes := Some {| types.Value := 4096 |} |}
    ∧ types.WritableLayer st = None.
Proof.
  destruct (@ContainerStats_sections nat Fixture.healthy
              {| types.ContainerStatsRequest_ContainerID := "3d4" |}
              (Fixture.server "vfs") Fixture.db Fixture.pod1 Fixture.raw 1%nat)
    as (st & s' & Hres & Hcpu & Hmem & Hwl);
    [vm_compute; reflexivity | vm_compute; reflexivity | reflexivity |].
  exists st, s'. split; [exact Hres|]. split; [exact Hcpu|]. split; [exact Hmem|].
  apply Hwl. discriminate.
Defined.

(** C8 on an overlay server whose diff directory cannot be read. *)
Lemma ContainerStats_probe_failed_witness :
  ∃ st s',
    @ContainerStats nat Fixture.unreadable
      {| types.ContainerStatsRequest_ContainerID := "3d4" |} (Fixture.server "overlay")
    = (inl {| types.Stats := Some st |}, s')
    ∧ types.WritableLayer st
      = Some {| types.FilesystemUsage_Timestamp := 1600000000000000000;
                types.FsID := Some {| types.Mountpoint :=
                  "/var/lib/containers/storage/overlay/3d4e5f/merged" |};
                types.UsedBytes := Some {| types.Value := 0 |};
                types.InodesUsed := Some {| types.Value := 0 |} |}
    ∧ journal s'
      = [] ++ [CallContainerStats "3d4e5f" "/kubepods/pod1";
               Warning ("unable to get disk usage for container "
                        +:+ "3d4e5f" +:+ "， " +:+ "permission denied")].
Proof.
  apply (@ContainerStats_probe_failed nat Fixture.unreadable
           {| types.ContainerStatsRequest_ContainerID := "3d4" |}
           (Fixture.server "overlay") Fixture.db Fixture.pod1 Fixture.raw 1%nat
           "permission denied");
    [vm_compute; reflexivity | vm_compute; reflexivity | reflexivity
    | reflexivity | reflexivity].
Defined.

(** The walk that fails is the one of the container's diff directory. *)
Example diffDir_of_db :
  filepath.Join [filepath.Dir (oci.MountPoint Fixture.db); "diff"]
  = "/var/lib/containers/storage/overlay/3d4e5f/diff".
Proof. by vm_compute. Qed.

(** C9 as stated fails: the error of a failed runtime query is appended as
    the runtime returned it, and nothing makes the runtime name the
    container.  Here the only error of the batch does not contain the ID of
    the only container. *)
Lemma CRIStatsForContainers_runtime_error_verbatim :
  (@CRIStatsForContainers nat Fixture.blind [Fixture.web] (Fixture.server "overlay")).1.2
  = ["unable to obtain cgroup stats"]
  ∧ ¬ (∀ e, e ∈ (@CRIStatsForContainers nat Fixture.blind [Fixture.web]
                    (Fixture.server "overlay")).1.2 →
            ∃ c, c ∈ [Fixture.web] ∧ Contains e (oci.ID c) = true).
Proof.
  assert ((@CRIStatsForContainers nat Fixture.blind [Fixture.web]
             (Fixture.server "overlay")).1.2
          = ["unable to obtain cgroup stats"]) as Herrs by (by vm_compute).
  split; [exact Herrs|]. rewrite Herrs. intros Hall.
  destruct (Hall "unable to obtain cgroup stats") as (c & Hc & Hcontains); [left|].
  apply list_elem_of_In in Hc. simpl in Hc. destruct Hc as [<-|[]].
  vm_compute in Hcontains. discriminate.
Qed.

(** C9 as the code has it, on the same batch: the error is the runtime's. *)
Lemma CRIStatsForContainers_errors_witness :
  (∃ c, c ∈ [Fixture.web]
     ∧ @GetSandbox nat (Fixture.server "overlay") (oci.Sandbox c) = None
     ∧ "unable to obtain cgroup stats" = sandboxNotFound c
     ∧ Contains "unable to obtain cgroup stats" (oci.ID c) = true)
  ∨ (∃ c sb w w', c ∈ [Fixture.web]
       ∧ @GetSandbox nat (Fixture.server "overlay") (oci.Sandbox c) = Some sb
       ∧ @runtime_ContainerStats nat Fixture.blind c (sandbox.CgroupParent sb) w
         = (inr "unable to obtain cgroup stats", w')).
Proof.
  apply (@CRIStatsForContainers_errors nat Fixture.blind [Fixture.web]
           (Fixture.server "overlay") "unable to obtain cgroup stats").
  vm_compute. left.
Defined.

(** * Further properties of the two files *)

(** ** [toOCIResources] *)

Lemma uint64_nonneg (x : Z) : 0 ≤ x < 2 ^ 63 → uint64 x = x.
Proof. intros Hx. unfold uint64. apply Z.mod_small. lia. Qed.

Lemma uint64_negative (x : Z) : - 2 ^ 63 ≤ x < 0 → uint64 x = 2 ^ 64 + x.
Proof.
  intros Hx. unfold uint64.
  symmetry. apply (Z.mod_unique x (2 ^ 64) (-1) (2 ^ 64 + x)); lia.
Qed.

(** [uint64] maps distinct [int64] values to distinct values. *)
Lemma uint64_inj (x y : Z) : int64 x → int64 y → uint64 x = uint64 y → x = y.
Proof.
  unfold int64. intros Hx Hy Heq.
  destruct (decide (x < 0)), (decide (y < 0)).
  - rewrite !uint64_negative in Heq by lia. lia.
  - rewrite (uint64_negative x), (uint64_nonneg y) in Heq by lia. lia.
  - rewrite (uint64_nonneg x), (uint64_negative y) in Heq by lia. lia.
  - rewrite !uint64_nonneg in Heq by lia. lia.
Qed.

Section ConversionProperties.

Context {World : Type} `{!Host World}.

(** X1: which fields of the converted spec are set.  Both sections are
    always there.  Shares, period, quota and limit are set exactly when the
    request's field is not zero; swap exactly when the memory limit is not
    zero and the host accounts swap; no other numeric field is ever set. *)
Theorem toOCIResources_set_iff (r : types.LinuxContainerResources) :
  ∃ cpu mem,
    rspec.CPU (toOCIResources r) = Some cpu
    ∧ rspec.Memory (toOCIResources r) = Some mem
    ∧ (is_Some (rspec.Shares cpu) ↔ types.CPUShares r ≠ 0)
    ∧ (is_Some (rspec.Period cpu) ↔ types.CPUPeriod r ≠ 0)
    ∧ (is_Some (rspec.Quota cpu) ↔ types.CPUQuota r ≠ 0)
    ∧ (is_Some (rspec.Limit mem) ↔ types.MemoryLimitInBytes r ≠ 0)
    ∧ (is_Some (rspec.Swap mem)
       ↔ types.MemoryLimitInBytes r ≠ 0 ∧ node_CgroupHasMemorySwap = true)
    ∧ rspec.RealtimeRuntime cpu = None ∧ rspec.RealtimePeriod cpu = None
    ∧ rspec.Reservation mem = None ∧ rspec.Kernel mem = None
    ∧ rspec.KernelTCP mem = None ∧ rspec.Swappiness mem = None
    ∧ rspec.DisableOOMKiller mem = None.
Proof.
  eexists _, _. split; [reflexivity|]. split; [reflexivity|]. simpl.
  split_and!; try done;
    case_decide; try destruct node_CgroupHasMemorySwap;
    (split; [intros [? [=]]; done | try done; intros [? ?]; done]).
Qed.

(** X2: for a request whose shares and period are not negative, every field
    that is not zero arrives in the spec with the request's value; quota and
    limit do so whatever their sign. *)
Theorem toOCIResources_values (r : types.LinuxContainerResources) :
  0 ≤ types.CPUShares r < 2 ^ 63 →
  0 ≤ types.CPUPeriod r < 2 ^ 63 →
  ∃ cpu mem,
    rspec.CPU (toOCIResources r) = Some cpu
    ∧ rspec.Memory (toOCIResources r) = Some mem
    ∧ (types.CPUShares r ≠ 0 → rspec.Shares cpu = Some (types.CPUShares r))
    ∧ (types.CPUPeriod r ≠ 0 → rspec.Period cpu = Some (types.CPUPeriod r))
    ∧ (types.CPUQuota r ≠ 0 → rspec.Quota cpu = Some (types.CPUQuota r))
    ∧ (types.MemoryLimitInBytes r ≠ 0 →
         rspec.Limit mem = Some (types.MemoryLimitInBytes r)).
Proof.
  intros Hs Hp. eexists _, _. split; [reflexivity|]. split; [reflexivity|]. simpl.
  split_and!; intros Hnz; case_decide; try done.
  - by rewrite uint64_nonneg.
  - by rewrite uint64_nonneg.
Qed.

(** X3: a negative share count is not refused: the conversion to [uint64]
    wraps it around, so the spec asks for at least 2^63 shares. *)
Theorem toOCIResources_negative_shares_wrap (r : types.LinuxContainerResources) :
  - 2 ^ 63 ≤ types.CPUShares r < 0 →
  ∃ cpu, rspec.CPU (toOCIResources r) = Some cpu
    ∧ rspec.Shares cpu = Some (2 ^ 64 + types.CPUShares r)
    ∧ 2 ^ 63 ≤ 2 ^ 64 + types.CPUShares r < 2 ^ 64.
Proof.
  intros Hs. eexists. split; [reflexivity|]. simpl.
  case_decide; [|lia]. rewrite uint64_negative by done. split; [done | lia].
Qed.

(** X4: the same for a negative period, while a negative quota (such as the
    -1 that lifts the quota) is handed on as it is. *)
Theorem toOCIResources_negative_period_wrap (r : types.LinuxContainerResources) :
  - 2 ^ 63 ≤ types.CPUPeriod r < 0 →
  types.CPUQuota r < 0 →
  ∃ cpu, rspec.CPU (toOCIResources r) = Some cpu
    ∧ rspec.Period cpu = Some (2 ^ 64 + types.CPUPeriod r)
    ∧ 2 ^ 63 ≤ 2 ^ 64 + types.CPUPeriod r < 2 ^ 64
    ∧ rspec.Quota cpu = Some (types.CPUQuota r).
Proof.
  intros Hp Hq. eexists. split; [reflexivity|]. simpl.
  repeat case_decide; try lia. rewrite uint64_negative by done.
  split_and!; [done | lia | lia | done].
Qed.

(** X5: the conversion reads every field of the request but [OomScoreAdj],
    and loses nothing of what it reads: two requests with [int64] shares and
    periods convert to the same spec exactly when they agree on all fields
    other than [OomScoreAdj]. *)
Theorem toOCIResources_eq_iff (r r' : types.LinuxContainerResources) :
  int64 (types.CPUShares r) → int64 (types.CPUShares r') →
  int64 (types.CPUPeriod r) → int64 (types.CPUPeriod r') →
  toOCIResources r = toOCIResources r' ↔ sameLimits r r'.
Proof.
  intros Hs Hs' Hp Hp'. split.
  - unfold toOCIResources. intros Heq.
    injection Heq as Hshares Hquota Hperiod Hcpus Hmems Hlimit Hswap.
    unfold sameLimits.
    split_and!; try done;
      repeat case_decide; simplify_eq; try lia; try done; by apply uint64_inj.
  - intros (Hperiod & Hquota & Hshares & Hmem & Hcpus & Hmems).
    unfold toOCIResources. by rewrite Hperiod, Hquota, Hshares, Hmem, Hcpus, Hmems.
Qed.

End ConversionProperties.

(** ** [UpdateContainerResources] *)

Section UpdateProperties.

Context {World : Type} `{!Host World}.

Implicit Types (s : Server World) (c : oci.Container).

(** X6: when the container ID does not resolve, the resolver's error is
    returned as it is and the server is left as it was: no liveness check, no
    runtime call. *)
Theorem UpdateContainerResources_not_found
    (req : types.UpdateContainerResourcesRequest) s (err : error) :
  GetContainerFromShortID s (types.ContainerID req) = inr err →
  UpdateContainerResources req s = (Some err, s).
Proof. intros Hc. unfold UpdateContainerResources. by rewrite Hc. Qed.

(** X7: when [UpdateContainerResources] succeeds.  It returns no error
    exactly when the container resolves, passes the liveness check, and either
    the request has no Linux section or the runtime accepts the converted
    spec. *)
Theorem UpdateContainerResources_success_iff
    (req : types.UpdateContainerResourcesRequest) s :
  (UpdateContainerResources req s).1 = None
  ↔ ∃ c, GetContainerFromShortID s (types.ContainerID req) = inl c
      ∧ oci.IsAlive c = None
      ∧ (types.Linux req = None
         ∨ ∃ linux, types.Linux req = Some linux
             ∧ (runtime_UpdateContainer c (toOCIResources linux) (world s)).1 = None).
Proof.
  unfold UpdateContainerResources, Runtime_UpdateContainer.
  destruct (GetContainerFromShortID s (types.ContainerID req)) as [c|err] eqn:Hc.
  2: { split; [done | by intros (c & [=] & _)]. }
  destruct (oci.IsAlive c) as [err|] eqn:Halive.
  { split; [done|]. intros (c' & [= <-] & Ha & _). congruence. }
  destruct (types.Linux req) as [linux|] eqn:Hlinux.
  2: { split; [|done]. intros _. exists c. split_and!; [done | done | by left]. }
  destruct (runtime_UpdateContainer c (toOCIResources linux) (world s)) as [[err|] w] eqn:Hrt.
  - split; [done|]. intros (c' & [= <-] & _ & [[=]|(l & [= <-] & Hr)]).
    rewrite Hrt in Hr. done.
  - split; [|done]. intros _. exists c. split_and!; [done | done |].
    right. exists linux. by rewrite Hrt.
Qed.

(** X8: an update that returns an error has recorded nothing: all resource
    snapshots, and the rest of the server's registries and configuration, are
    what they were.  Only the world may have moved, by the one runtime call
    that failed. *)
Theorem UpdateContainerResources_error_keeps_registry
    (req : types.UpdateContainerResourcesRequest) s (err : error) :
  (UpdateContainerResources req s).1 = Some err →
  containers (UpdateContainerResources req s).2 = containers s
  ∧ sandboxes (UpdateContainerResources req s).2 = sandboxes s
  ∧ ctrIDIndex (UpdateContainerResources req s).2 = ctrIDIndex s
  ∧ Storage (UpdateContainerResources req s).2 = Storage s.
Proof.
  unfold UpdateContainerResources, Runtime_UpdateContainer.
  destruct (GetContainerFromShortID s (types.ContainerID req)) as [c|e]; [|done].
  destruct (oci.IsAlive c); [done|].
  destruct (types.Linux req) as [linux|]; [|done].
  by destruct (runtime_UpdateContainer c (toOCIResources linux) (world s)) as [[e|] w].
Qed.

(** X9: what an update does to the world.  Either nothing, or exactly one
    call to the runtime: [UpdateContainer] for the resolved, live container,
    with the conversion of the request's Linux section.  It never queries
    statistics and never writes a warning. *)
Theorem UpdateContainerResources_runtime_calls
    (req : types.UpdateContainerResourcesRequest) s :
  (journal (UpdateContainerResources req s).2 = journal s
   ∧ world (UpdateContainerResources req s).2 = world s)
  ∨ ∃ c linux,
      GetContainerFromShortID s (types.ContainerID req) = inl c
      ∧ oci.IsAlive c = None
      ∧ types.Linux req = Some linux
      ∧ journal (UpdateContainerResources req s).2
        = journal s ++ [CallUpdateContainer (oci.ID c) (toOCIResources linux)]
      ∧ world (UpdateContainerResources req s).2
        = (runtime_UpdateContainer c (toOCIResources linux) (world s)).2.
Proof.
  unfold UpdateContainerResources, Runtime_UpdateContainer.
  destruct (GetContainerFromShortID s (types.ContainerID req)) as [c|e]; [|by left].
  destruct (oci.IsAlive c) eqn:Halive; [by left|].
  destruct (types.Linux req) as [linux|]; [|by left].
  right. exists c, linux.
  by destruct (runtime_UpdateContainer c (toOCIResources linux) (world s)) as [[e|] w].
Qed.

End UpdateProperties.

(** ** [buildContainerStats] *)

Section BuildProperties.

Context {World : Type} `{!Host World}.

Implicit Types (s : Server World) (c : oci.Container) (raw : oci.ContainerStats).

(** The attributes of a record are the container's: its ID, the name
    and attempt of its metadata, its labels and its annotations, whatever the
    storage driver and the outcome of the disk probe. *)
Lemma buildContainerStats_attributes raw c s :
  types.Attributes (buildContainerStats raw c s).1
  = Some {| types.ID := oci.ID c;
            types.Metadata := Some
              {| types.Name := oci.Name (oci.metadata c);
                 types.Attempt := oci.Attempt (oci.metadata c) |};
            types.Labels := oci.Labels c;
            types.Annotations := oci.Annotations c |}.
Proof.
  unfold buildContainerStats. case_decide; [|done].
  by destruct (GetDiskUsageStats _ _) as [[bytesUsed inodeUsed] [e|]].
Qed.

(** X10: the writable-layer section is present exactly when the storage
    driver is overlay, whether the disk probe succeeds or not.  When present
    it carries the timestamp of the runtime's statistics, and its filesystem
    identifier is the container's mount point itself (not the diff directory
    that was measured). *)
Theorem buildContainerStats_writable_layer_iff raw c s :
  (is_Some (types.WritableLayer (buildContainerStats raw c s).1)
   ↔ Storage s = "overlay")
  ∧ ∀ fs, types.WritableLayer (buildContainerStats raw c s).1 = Some fs →
      types.FilesystemUsage_Timestamp fs = oci.SystemNano raw
      ∧ types.FsID fs = Some {| types.Mountpoint := oci.MountPoint c |}
      ∧ is_Some (types.UsedBytes fs) ∧ is_Some (types.InodesUsed fs).
Proof.
  unfold buildContainerStats. case_decide as Hst.
  - destruct (GetDiskUsageStats _ _) as [[bytesUsed inodeUsed] [e|]]; simpl;
      (split; [split; [done | by eexists] | intros fs [= <-]; simpl; eauto]).
  - simpl. split; [split; [by intros [? [=]] | done] | by intros fs [=]].
Qed.

(** X11: on the overlay driver, when the walk of the diff directory
    succeeds, the writable-layer section reports the bytes and inodes the walk
    counted, and the server is left as it was: nothing is logged. *)
Theorem buildContainerStats_probe_ok raw c s (bytes inodes : Z) :
  Storage s = "overlay" →
  diskWalk (filepath.Join [filepath.Dir (oci.MountPoint c); "diff"]) (world s)
  = inl (bytes, inodes) →
  types.WritableLayer (buildContainerStats raw c s).1
  = Some {| types.FilesystemUsage_Timestamp := oci.SystemNano raw;
            types.FsID := Some {| types.Mountpoint := oci.MountPoint c |};
            types.UsedBytes := Some {| types.Value := bytes |};
            types.InodesUsed := Some {| types.Value := inodes |} |}
  ∧ (buildContainerStats raw c s).2 = s.
Proof.
  intros Hst Hwalk. unfold buildContainerStats, GetDiskUsageStats.
  case_decide; [|done]. by rewrite Hwalk.
Qed.

(** X12: what assembling a record does to the server.  Either nothing, or
    one warning appended to the journal, and the latter exactly when the
    driver is overlay and the walk of the diff directory failed.  The runtime
    is never called and no registry is touched. *)
Theorem buildContainerStats_effects raw c s :
  ((buildContainerStats raw c s).2 = s
   ∧ ¬ (Storage s = "overlay"
        ∧ ∃ e, diskWalk (filepath.Join [filepath.Dir (oci.MountPoint c); "diff"])
                 (world s) = inr e))
  ∨ ∃ e, Storage s = "overlay"
      ∧ diskWalk (filepath.Join [filepath.Dir (oci.MountPoint c); "diff"]) (world s)
        = inr e
      ∧ (buildContainerStats raw c s).2
        = log_Warnf ("unable to get disk usage for container "
                     +:+ oci.ID c +:+ "， " +:+ e) s.
Proof.
  unfold buildContainerStats, GetDiskUsageStats. case_decide as Hst.
  - destruct (diskWalk _ _) as [[bytes inodes]|e] eqn:Hwalk; simpl.
    + left. split; [done|]. by intros (_ & e & [=]).
    + right. by exists e.
  - left. split; [done|]. by intros (? & _).
Qed.

End BuildProperties.

(** ** [CRIStatsForContainers] *)

Section BatchProperties.

Context {World : Type} `{!Host World}.

Implicit Types (s : Server World) (c : oci.Container) (raw : oci.ContainerStats)
  (l : list oci.Container).

Lemma buildContainerStats_state raw c s :
  (buildContainerStats raw c s).2 = s
  ∨ ∃ msg, (buildContainerStats raw c s).2 = log_Warnf msg s.
Proof.
  unfold buildContainerStats. case_decide; [|by left].
  destruct (GetDiskUsageStats _ _) as [[bytesUsed inodeUsed] [e|]]; simpl; eauto.
Qed.

(** The loop started with slices that already hold entries appends to them
    what it would have collected from empty slices. *)
Lemma statsLoop_acc l stats errs s :
  statsLoop l stats errs s
  = let '(stats', errs', s') := statsLoop l [] [] s in
    (stats ++ stats', errs ++ errs', s').
Proof.
  revert stats errs s.
  induction l as [|c l IH]; intros stats errs s.
  - simpl. by rewrite !app_nil_r.
  - cbn [statsLoop].
    destruct (GetSandbox s (oci.Sandbox c)) as [sb|].
    + destruct (Runtime_ContainerStats c (sandbox.CgroupParent sb) s)
        as [[ociStat|err] s1].
      * destruct (buildContainerStats ociStat c s1) as [st s2].
        rewrite (IH (stats ++ [st]) errs s2), (IH ([] ++ [st]) [] s2).
        destruct (statsLoop l [] [] s2) as [[stats' errs'] s'].
        by rewrite <- app_assoc.
      * rewrite (IH stats (errs ++ [err]) s1), (IH [] ([] ++ [err]) s1).
        destruct (statsLoop l [] [] s1) as [[stats' errs'] s'].
        by rewrite <- app_assoc.
    + rewrite (IH stats (errs ++ [sandboxNotFound c]) s),
        (IH [] ([] ++ [sandboxNotFound c]) s).
      destruct (statsLoop l [] [] s) as [[stats' errs'] s'].
      by rewrite <- app_assoc.
Qed.

(** The three outcomes of a batch of one. *)
Lemma CRIStatsForContainers_one c s :
  CRIStatsForContainers [c] s
  = match GetSandbox s (oci.Sandbox c) with
    | None => ([], [sandboxNotFound c], s)
    | Some sb =>
        let cgroup := sandbox.CgroupParent sb in
        match runtime_ContainerStats c cgroup (world s) with
        | (inr err, w) => ([], [err], record (CallContainerStats (oci.ID c) cgroup) w s)
        | (inl raw, w) =>
            let s1 := record (CallContainerStats (oci.ID c) cgroup) w s in
            ([(buildContainerStats raw c s1).1], [], (buildContainerStats raw c s1).2)
        end
    end.
Proof.
  unfold CRIStatsForContainers. cbn [statsLoop]. unfold Runtime_ContainerStats.
  destruct (GetSandbox s (oci.Sandbox c)) as [sb|]; [|reflexivity].
  destruct (runtime_ContainerStats c (sandbox.CgroupParent sb) (world s))
    as [[raw|err] w]; [|reflexivity].
  cbn zeta. by destruct (buildContainerStats raw c _) as [st s2].
Qed.

Lemma CRIStatsForContainers_app l1 l2 s :
  CRIStatsForContainers (l1 ++ l2) s
  = let '(stats1, errs1, s1) := CRIStatsForContainers l1 s in
    let '(stats2, errs2, s2) := CRIStatsForContainers l2 s1 in
    (stats1 ++ stats2, errs1 ++ errs2, s2).
Proof.
  unfold CRIStatsForContainers. rewrite statsLoop_app.
  destruct (statsLoop l1 [] [] s) as [[stats1 errs1] s1].
  apply statsLoop_acc.
Qed.

Lemma CRIStatsForContainers_cons c l s :
  CRIStatsForContainers (c :: l) s
  = let '(stats1, errs1, s1) := CRIStatsForContainers [c] s in
    let '(stats2, errs2, s2) := CRIStatsForContainers l s1 in
    (stats1 ++ stats2, errs1 ++ errs2, s2).
Proof. apply (CRIStatsForContainers_app [c] l). Qed.

(** A batch of one leaves the registries and the configuration alone. *)
Lemma CRIStatsForContainers_one_registry c s :
  registry (CRIStatsForContainers [c] s).2 = registry s.
Proof.
  rewrite CRIStatsForContainers_one.
  destruct (GetSandbox s (oci.Sandbox c)) as [sb|]; [|done]. cbn zeta.
  destruct (runtime_ContainerStats c (sandbox.CgroupParent sb) (world s))
    as [[raw|err] w]; [|done].
  cbn zeta. simpl.
  by destruct (buildContainerStats_state raw c
                 (record (CallContainerStats (oci.ID c) (sandbox.CgroupParent sb)) w s))
    as [->|[msg ->]].
Qed.

Lemma CRIStatsForContainers_registry l s :
  registry (CRIStatsForContainers l s).2 = registry s.
Proof.
  revert s. induction l as [|c l IH]; intros s; [done|].
  rewrite CRIStatsForContainers_cons.
  pose proof (CRIStatsForContainers_one_registry c s) as Hone.
  destruct (CRIStatsForContainers [c] s) as [[stats1 errs1] s1].
  pose proof (IH s1) as Hrest.
  destruct (CRIStatsForContainers l s1) as [[stats2 errs2] s2].
  simpl in *. congruence.
Qed.

Lemma statsQueries_registry l s s' :
  registry s' = registry s → statsQueries s' l = statsQueries s l.
Proof.
  intros [= _ Hsb _ _]. unfold statsQueries, GetSandbox. by rewrite Hsb.
Qed.

(** A batch of one: one record or one error, at most one runtime query. *)
Lemma CRIStatsForContainers_one_outcome c s :
  ∃ stats errs s' new,
    CRIStatsForContainers [c] s = (stats, errs, s')
    ∧ (length stats + length errs = 1)%nat
    ∧ (stats = [] ∨ map statsID stats = [Some (oci.ID c)])
    ∧ journal s' = journal s ++ new
    ∧ filter (λ ev, isRuntimeCall ev = true) new = statsQueries s [c].
Proof.
  rewrite CRIStatsForContainers_one. unfold statsQueries. cbn [omap list_omap].
  destruct (GetSandbox s (oci.Sandbox c)) as [sb|]; cbn [fmap option_fmap option_map].
  2: { exists [], [sandboxNotFound c], s, []. rewrite app_nil_r.
       split_and!; try done. by left. }
  cbn zeta.
  destruct (runtime_ContainerStats c (sandbox.CgroupParent sb) (world s))
    as [[raw|err] w].
  2: { eexists [], [err], _, [CallContainerStats (oci.ID c) (sandbox.CgroupParent sb)].
       split; [reflexivity|]. split_and!; [done | by left | done | reflexivity]. }
  cbn zeta.
  set (s1 := record (CallContainerStats (oci.ID c) (sandbox.CgroupParent sb)) w s).
  pose proof (buildContainerStats_sections raw c s1) as (Hid & _).
  destruct (buildContainerStats_state raw c s1) as [Hs|[msg Hs]].
  - eexists [_], [], _, [CallContainerStats (oci.ID c) (sandbox.CgroupParent sb)].
    split; [reflexivity|].
    split_and!; [done | right; simpl; by rewrite Hid | | reflexivity].
    rewrite Hs. reflexivity.
  - eexists [_], [], _,
      [CallContainerStats (oci.ID c) (sandbox.CgroupParent sb); Warning msg].
    split; [reflexivity|].
    split_and!; [done | right; simpl; by rewrite Hid | | reflexivity].
    rewrite Hs. simpl. by rewrite <- app_assoc.
Qed.

(** X13: a batch may be split anywhere: collecting for [l1 ++ l2] is
    collecting for [l1], then for [l2] on the server the first part left, and
    concatenating the records and the errors. *)
Theorem CRIStatsForContainers_split l1 l2 s :
  CRIStatsForContainers (l1 ++ l2) s
  = let '(stats1, errs1, s1) := CRIStatsForContainers l1 s in
    let '(stats2, errs2, s2) := CRIStatsForContainers l2 s1 in
    (stats1 ++ stats2, errs1 ++ errs2, s2).
Proof. apply CRIStatsForContainers_app. Qed.

(** X14: every container of the batch yields exactly one record or exactly
    one error: the two slices together are as long as the batch, whatever the
    runtime answers, and also when a container occurs twice. *)
Theorem CRIStatsForContainers_one_result_each l s :
  (length (CRIStatsForContainers l s).1.1
   + length (CRIStatsForContainers l s).1.2 = length l)%nat.
Proof.
  revert s. induction l as [|c l IH]; intros s; [done|].
  rewrite CRIStatsForContainers_cons.
  destruct (CRIStatsForContainers_one_outcome c s)
    as (stats1 & errs1 & s1 & new & -> & Hone & _).
  pose proof (IH s1) as Hrest.
  destruct (CRIStatsForContainers l s1) as [[stats2 errs2] s2].
  simpl in *. rewrite !length_app. lia.
Qed.

(** X15: the runtime is queried once for every container whose sandbox is
    registered, scoped by the cgroup parent of that sandbox, in batch order,
    and for no other container; [UpdateContainer] is never called.  Anything
    else the batch adds to the journal is a warning. *)
Theorem CRIStatsForContainers_queries l s :
  ∃ new, journal (CRIStatsForContainers l s).2 = journal s ++ new
    ∧ filter (λ ev, isRuntimeCall ev = true) new = statsQueries s l.
Proof.
  revert s. induction l as [|c l IH]; intros s.
  - exists []. by rewrite app_nil_r.
  - rewrite CRIStatsForContainers_cons.
    pose proof (CRIStatsForContainers_one_registry c s) as Hreg.
    destruct (CRIStatsForContainers_one_outcome c s)
      as (stats1 & errs1 & s1 & new1 & Hone & _ & _ & Hj1 & Hq1).
    rewrite Hone in Hreg |- *.
    destruct (IH s1) as (new2 & Hj2 & Hq2).
    destruct (CRIStatsForContainers l s1) as [[stats2 errs2] s2].
    simpl in *. exists (new1 ++ new2). split.
    + by rewrite Hj2, Hj1, <- app_assoc.
    + rewrite filter_app, Hq1, Hq2, (statsQueries_registry l s s1 Hreg).
      unfold statsQueries. cbn [omap list_omap].
      by destruct (GetSandbox s (oci.Sandbox c)).
Qed.

(** X16: collecting statistics is read-only for the server: the container
    registry with every resource snapshot, the sandbox registry, the ID index
    and the storage setting are the same after the batch as before. *)
Theorem CRIStatsForContainers_read_only l s :
  containers (CRIStatsForContainers l s).2 = containers s
  ∧ sandboxes (CRIStatsForContainers l s).2 = sandboxes s
  ∧ ctrIDIndex (CRIStatsForContainers l s).2 = ctrIDIndex s
  ∧ Storage (CRIStatsForContainers l s).2 = Storage s.
Proof.
  pose proof (CRIStatsForContainers_registry l s) as Hreg.
  unfold registry in Hreg. by simplify_eq.
Qed.

(** X17: the records keep the order of the batch: the container IDs of the
    records, read in order, are what is left of the batch's IDs after striking
    out those of the containers that failed. *)
Theorem CRIStatsForContainers_order l s :
  map statsID (CRIStatsForContainers l s).1.1
    `sublist_of` map (λ c, Some (oci.ID c)) l.
Proof.
  revert s. induction l as [|c l IH]; intros s; [done|].
  rewrite CRIStatsForContainers_cons.
  destruct (CRIStatsForContainers_one_outcome c s)
    as (stats1 & errs1 & s1 & new & -> & _ & Hids & _).
  pose proof (IH s1) as Hrest.
  destruct (CRIStatsForContainers l s1) as [[stats2 errs2] s2].
  simpl in *. rewrite map_app.
  destruct Hids as [-> | ->]; simpl.
  - by apply sublist_cons.
  - by apply sublist_skip.
Qed.

(** X18: a batch none of whose containers has a registered sandbox returns
    no record and one sandbox-not-found error per container, in batch order,
    and leaves the server exactly as it was: the runtime is not called. *)
Theorem CRIStatsForContainers_no_sandboxes l s :
  (∀ c, c ∈ l → GetSandbox s (oci.Sandbox c) = None) →
  CRIStatsForContainers l s = ([], map sandboxNotFound l, s).
Proof.
  revert s. induction l as [|c l IH]; intros s Hall; [done|].
  rewrite CRIStatsForContainers_cons, CRIStatsForContainers_one.
  rewrite (Hall c) by left.
  rewrite IH; [done|]. intros c' Hc'. apply Hall. by right.
Qed.

(** X19: a batch all of whose containers have a registered sandbox and a
    runtime query that succeeds returns no error and one record per
    container, in batch order, each carrying its container's ID. *)
Theorem CRIStatsForContainers_all_succeed l s :
  (∀ c, c ∈ l → ∃ sb, GetSandbox s (oci.Sandbox c) = Some sb
      ∧ ∀ w, ∃ raw w', runtime_ContainerStats c (sandbox.CgroupParent sb) w = (inl raw, w')) →
  ∃ stats s', CRIStatsForContainers l s = (stats, [], s')
    ∧ map statsID stats = map (λ c, Some (oci.ID c)) l.
Proof.
  intros Hall. unfold CRIStatsForContainers.
  destruct (statsLoop_all_succeed l [] [] s Hall) as (new & s' & -> & Hids & _).
  by exists new, s'.
Qed.

End BatchProperties.

(** ** [ContainerStats] *)

Section EntryPointProperties.

Context {World : Type} `{!Host World}.

Implicit Types (s : Server World) (c : oci.Container) (raw : oci.ContainerStats).

(** X20: when the container ID does not resolve, the resolver's error is
    returned as it is and the server is left as it was: no sandbox lookup, no
    runtime query. *)
Theorem ContainerStats_not_found (req : types.ContainerStatsRequest) s (err : error) :
  GetContainerFromShortID s (types.ContainerStatsRequest_ContainerID req) = inr err →
  ContainerStats req s = (inr err, s).
Proof. intros Hc. unfold ContainerStats. by rewrite Hc. Qed.

(** X21: when the container resolves but its sandbox is not registered, the
    sandbox-not-found error is returned; it names the full ID of the container
    and the ID of the sandbox, and the server is left as it was: the runtime is
    not queried. *)
Theorem ContainerStats_sandbox_missing (req : types.ContainerStatsRequest) s c :
  GetContainerFromShortID s (types.ContainerStatsRequest_ContainerID req) = inl c →
  GetSandbox s (oci.Sandbox c) = None →
  ContainerStats req s = (inr (sandboxNotFound c), s)
  ∧ Contains (sandboxNotFound c) (oci.ID c) = true
  ∧ Contains (sandboxNotFound c) (oci.Sandbox c) = true.
Proof.
  intros Hc Hsb. split; [|apply sandboxNotFound_names].
  unfold ContainerStats. by rewrite Hc, CRIStatsForContainers_one, Hsb.
Qed.

(** X22: when the runtime query fails, the runtime's error is returned as it
    is; the query is the only thing that happened: the disk is not probed and
    nothing is logged. *)
Theorem ContainerStats_runtime_error_verbatim (req : types.ContainerStatsRequest) s c
    (sb : sandbox.Sandbox) (err : error) (w : World) :
  GetContainerFromShortID s (types.ContainerStatsRequest_ContainerID req) = inl c →
  GetSandbox s (oci.Sandbox c) = Some sb →
  runtime_ContainerStats c (sandbox.CgroupParent sb) (world s) = (inr err, w) →
  ContainerStats req s
  = (inr err, record (CallContainerStats (oci.ID c) (sandbox.CgroupParent sb)) w s).
Proof.
  intros Hc Hsb Hq. unfold ContainerStats.
  by rewrite Hc, CRIStatsForContainers_one, Hsb; cbn zeta; rewrite Hq.
Qed.

(** X23: the branch of [ContainerStats] that is commented "should never
    happen" is never taken.  For a resolved container the batch of one returns
    either one error and no record, and that error is the result, or one
    record, about that container, and no error, and that record is the
    result. *)
Theorem ContainerStats_never_inconsistent (req : types.ContainerStatsRequest) s c :
  GetContainerFromShortID s (types.ContainerStatsRequest_ContainerID req) = inl c →
  (∃ e s', CRIStatsForContainers [c] s = ([], [e], s')
     ∧ ContainerStats req s = (inr e, s'))
  ∨ (∃ st s', CRIStatsForContainers [c] s = ([st], [], s')
       ∧ statsID st = Some (oci.ID c)
       ∧ ContainerStats req s = (inl {| types.Stats := Some st |}, s')).
Proof.
  intros Hc. unfold ContainerStats. rewrite Hc, CRIStatsForContainers_one.
  destruct (GetSandbox s (oci.Sandbox c)) as [sb|]; [|left; by eexists _, _].
  cbn zeta.
  destruct (runtime_ContainerStats c (sandbox.CgroupParent sb) (world s))
    as [[raw|err] w]; [|left; by eexists _, _].
  cbn zeta. right. eexists _, _. split; [reflexivity|]. split; [|reflexivity].
  apply buildContainerStats_sections.
Qed.

(** X24: a response is returned only when all three steps succeeded: the
    container resolved, its sandbox is registered, and the runtime answered
    the query scoped by the sandbox's cgroup parent.  The response then holds
    a record, and the record is about the resolved container. *)
Theorem ContainerStats_response_inv (req : types.ContainerStatsRequest) s
    (resp : types.ContainerStatsResponse) (s' : Server World) :
  ContainerStats req s = (inl resp, s') →
  ∃ c sb raw w st,
    GetContainerFromShortID s (types.ContainerStatsRequest_ContainerID req) = inl c
    ∧ GetSandbox s (oci.Sandbox c) = Some sb
    ∧ runtime_ContainerStats c (sandbox.CgroupParent sb) (world s) = (inl raw, w)
    ∧ types.Stats resp = Some st
    ∧ statsID st = Some (oci.ID c).
Proof.
  unfold ContainerStats.
  destruct (GetContainerFromShortID s _) as [c|err] eqn:Hc; [|done].
  rewrite CRIStatsForContainers_one.
  destruct (GetSandbox s (oci.Sandbox c)) as [sb|] eqn:Hsb; [|done]. cbn zeta.
  destruct (runtime_ContainerStats c (sandbox.CgroupParent sb) (world s))
    as [[raw|err] w] eqn:Hq; [|done].
  cbn zeta. intros [= <- <-]. exists c, sb, raw, w. eexists.
  split_and!; [done | done | done | reflexivity |].
  apply buildContainerStats_sections.
Qed.

End EntryPointProperties.

(** ** The diff directory *)

Lemma append_nil_r (a : string) : a +:+ "" = a.
Proof.
  induction a as [|x a IH]; [done|].
  change (String x (a +:+ "") = String x a). by rewrite IH.
Qed.

Lemma elements_name (cur e : string) :
  filepath.hasSeparator e = false → filepath.elements cur e = [cur +:+ e].
Proof.
  revert cur. induction e as [|a e IH]; intros cur Hsep.
  - simpl. by rewrite append_nil_r.
  - cbn [filepath.hasSeparator] in Hsep. apply orb_false_iff in Hsep as [Ha He].
    cbn [filepath.elements]. rewrite Ha, IH by done.
    by rewrite append_assoc.
Qed.

Lemma elements_name_sep (cur e rest : string) :
  filepath.hasSeparator e = false →
  filepath.elements cur (e +:+ String "/" rest)
  = (cur +:+ e) :: filepath.elements "" rest.
Proof.
  revert cur. induction e as [|a e IH]; intros cur Hsep.
  - change ("" +:+ String "/" rest) with (String "/" rest).
    cbn [filepath.elements]. by rewrite append_nil_r.
  - cbn [filepath.hasSeparator] in Hsep. apply orb_false_iff in Hsep as [Ha He].
    change (String a e +:+ String "/" rest) with (String a (e +:+ String "/" rest)).
    cbn [filepath.elements]. rewrite Ha, IH by done.
    by rewrite append_assoc.
Qed.

Lemma concat_snoc (sep : string) (l : list string) (e : string) :
  l ≠ [] → String.concat sep (l ++ [e]) = String.concat sep l +:+ sep +:+ e.
Proof.
  induction l as [|x l IH]; [done|]. intros _.
  destruct l as [|y l]; [done|].
  change (String.concat sep ((x :: y :: l) ++ [e]))
    with (x +:+ sep +:+ String.concat sep ((y :: l) ++ [e])).
  change (String.concat sep (x :: y :: l))
    with (x +:+ sep +:+ String.concat sep (y :: l)).
  rewrite IH by done. by rewrite !append_assoc.
Qed.

Lemma elements_concat (l : list string) :
  l ≠ [] → Forall (λ e, filepath.hasSeparator e = false) l →
  filepath.elements "" (String.concat "/" l) = l.
Proof.
  induction l as [|e l IH]; [done|]. intros _ Hall.
  apply Forall_cons in Hall as [He Hl].
  destruct l as [|e' l].
  - change (String.concat "/" [e]) with e. by rewrite elements_name.
  - change (String.concat "/" (e :: e' :: l))
      with (e +:+ String "/" (String.concat "/" (e' :: l))).
    rewrite elements_name_sep by done. by rewrite IH.
Qed.

Lemma isName_spec (e : string) :
  isName e = true →
  String.eqb e "" = false ∧ String.eqb e "." = false ∧ String.eqb e ".." = false
  ∧ filepath.hasSeparator e = false.
Proof.
  unfold isName. rewrite !andb_true_iff, !negb_true_iff. tauto.
Qed.

Lemma foldl_cleanElem_names (rooted : bool) (out l : list string) :
  Forall (λ e, isName e = true) l →
  foldl (filepath.cleanElem rooted) out l = rev l ++ out.
Proof.
  revert out. induction l as [|e l IH]; intros out Hall; [done|].
  apply Forall_cons in Hall as [He Hl].
  destruct (isName_spec e He) as (H1 & H2 & H3 & _).
  cbn [foldl]. rewrite IH by done.
  unfold filepath.cleanElem. rewrite H1, H2, H3. simpl.
  by rewrite <- app_assoc.
Qed.

Lemma names_no_separator (l : list string) :
  Forall (λ e, isName e = true) l →
  Forall (λ e, filepath.hasSeparator e = false) l.
Proof.
  intros Hall. eapply Forall_impl; [exact Hall|].
  intros e He. by apply isName_spec.
Qed.

(** [filepath.Clean] leaves an absolute path of names as it is. *)
Lemma Clean_rootedPath (l : list string) :
  Forall (λ e, isName e = true) l →
  filepath.Clean (rootedPath l) = rootedPath l.
Proof.
  intros Hall. destruct (decide (l = [])) as [->|Hne]; [done|].
  unfold filepath.Clean, rootedPath.
  change ("/" +:+ String.concat "/" l) with (String "/" (String.concat "/" l)).
  cbn [filepath.isRooted filepath.elements]. simpl Ascii.eqb. cbv iota.
  rewrite elements_concat by (done || by apply names_no_separator).
  cbn [foldl]. change (filepath.cleanElem true [] "") with (@nil string).
  rewrite foldl_cleanElem_names by done.
  by rewrite app_nil_r, rev_involutive.
Qed.

(** With a trailing separator it drops the separator. *)
Lemma Clean_rootedPath_slash (l : list string) :
  Forall (λ e, isName e = true) l →
  filepath.Clean (rootedPath l +:+ "/") = rootedPath l.
Proof.
  intros Hall. destruct (decide (l = [])) as [->|Hne]; [done|].
  unfold filepath.Clean, rootedPath.
  change (("/" +:+ String.concat "/" l) +:+ "/")
    with (String "/" (String.concat "/" l +:+ "/" +:+ "")).
  rewrite <- concat_snoc by done.
  cbn [filepath.isRooted filepath.elements]. simpl Ascii.eqb. cbv iota.
  rewrite elements_concat.
  - cbn [foldl]. change (filepath.cleanElem true [] "") with (@nil string).
    rewrite foldl_app, (foldl_cleanElem_names true [] l) by done.
    cbn [foldl]. unfold filepath.cleanElem at 1. simpl.
    change ("/" +:+ String.concat "/" l) with (String "/" (String.concat "/" l)).
    by rewrite app_nil_r, rev_involutive.
  - by destruct l.
  - apply Forall_app. split; [by apply names_no_separator | by constructor].
Qed.

Lemma upToLastSeparator_none (e : string) :
  filepath.hasSeparator e = false → filepath.upToLastSeparator e = "".
Proof.
  intros Hsep. destruct e as [|a e]; [done|].
  cbn [filepath.upToLastSeparator]. by rewrite Hsep.
Qed.

Lemma hasSeparator_app_sep (p rest : string) :
  filepath.hasSeparator (p +:+ String "/" rest) = true.
Proof.
  induction p as [|a p IH]; [done|].
  change (String a p +:+ String "/" rest) with (String a (p +:+ String "/" rest)).
  cbn [filepath.hasSeparator]. rewrite IH. apply orb_true_r.
Qed.

(** Up to its last separator, [p/name] is [p/]. *)
Lemma upToLastSeparator_name (p name : string) :
  filepath.hasSeparator name = false →
  filepath.upToLastSeparator (p +:+ String "/" name) = p +:+ "/".
Proof.
  intros Hsep. induction p as [|a p IH].
  - change ("" +:+ String "/" name) with (String "/" name).
    cbn [filepath.upToLastSeparator filepath.hasSeparator]. simpl Ascii.eqb. cbv iota.
    simpl orb. cbv iota. by rewrite upToLastSeparator_none.
  - change (String a p +:+ String "/" name) with (String a (p +:+ String "/" name)).
    cbn [filepath.upToLastSeparator filepath.hasSeparator].
    rewrite hasSeparator_app_sep, orb_true_r, IH. done.
Qed.

(** [filepath.Dir] of an absolute path of names drops the last name. *)
Lemma Dir_rootedPath (l : list string) (name : string) :
  Forall (λ e, isName e = true) (l ++ [name]) →
  filepath.Dir (rootedPath (l ++ [name])) = rootedPath l.
Proof.
  intros [Hl Hname]%Forall_app. apply Forall_singleton, isName_spec in Hname as (_ & _ & _ & Hsep).
  unfold filepath.Dir.
  destruct (decide (l = [])) as [->|Hne].
  - change (rootedPath ([] ++ [name])) with ("" +:+ String "/" name).
    by rewrite upToLastSeparator_name.
  - unfold rootedPath at 1. rewrite concat_snoc by done.
    change ("/" +:+ String.concat "/" l +:+ "/" +:+ name)
      with (rootedPath l +:+ String "/" name).
    rewrite upToLastSeparator_name by done. by apply Clean_rootedPath_slash.
Qed.

(** [filepath.Join] of an absolute path of names and one more name. *)
Lemma Join_rootedPath (l : list string) (name : string) :
  Forall (λ e, isName e = true) (l ++ [name]) →
  filepath.Join [rootedPath l; name] = rootedPath (l ++ [name]).
Proof.
  intros Hall. cbn [filepath.Join].
  change (String.eqb (rootedPath l) "") with false. cbv iota.
  change (String.concat "/" [rootedPath l; name]) with (rootedPath l +:+ "/" +:+ name).
  destruct (decide (l = [])) as [->|Hne].
  - apply Forall_singleton, isName_spec in Hall as (Hne & Hdot & Hdots & Hsep).
    change (rootedPath [] +:+ "/" +:+ name) with (String "/" (String "/" name)).
    unfold filepath.Clean. cbn [filepath.isRooted filepath.elements].
    simpl Ascii.eqb. cbv iota. rewrite elements_name by done.
    cbn [foldl]. change (filepath.cleanElem true [] "") with (@nil string).
    change ("" +:+ name) with name.
    unfold filepath.cleanElem. rewrite Hne, Hdot, Hdots. done.
  - rewrite <- (Clean_rootedPath (l ++ [name])) by done.
    unfold rootedPath at 2. rewrite concat_snoc by done.
    by rewrite <- !append_assoc.
Qed.

(** The directory that line 61 computes for an absolute mount point of plain
    names is the sibling [diff] of the mount point's last element. *)
Lemma diffDir_rootedPath (l : list string) (name : string) :
  Forall (λ e, isName e = true) (l ++ [name]) →
  filepath.Join [filepath.Dir (rootedPath (l ++ [name])); "diff"]
  = rootedPath (l ++ ["diff"]).
Proof.
  intros Hall. rewrite Dir_rootedPath by done.
  apply Join_rootedPath. apply Forall_app in Hall as [Hl _].
  apply Forall_app. split; [done|]. by constructor.
Qed.

(** For a mount point without a separator it is the relative path [diff]. *)
Lemma diffDir_no_separator (mountPoint : string) :
  filepath.hasSeparator mountPoint = false →
  filepath.Join [filepath.Dir mountPoint; "diff"] = "diff".
Proof.
  intros Hsep. unfold filepath.Dir. by rewrite upToLastSeparator_none.
Qed.

Section DiffDirProperties.

Context {World : Type} `{!Host World}.

Implicit Types (s : Server World) (c : oci.Container) (raw : oci.ContainerStats).

(** X25: on the overlay driver, for a container whose mount point is an
    absolute path of plain names, the usage reported in the writable-layer
    section is that of the sibling [diff] of the mount point's last element:
    for [/a/b/merged] the directory walked is [/a/b/diff]. *)
Theorem buildContainerStats_measures_sibling raw c s
    (l : list string) (name : string) (bytes inodes : Z) :
  Storage s = "overlay" →
  Forall (λ e, isName e = true) (l ++ [name]) →
  oci.MountPoint c = rootedPath (l ++ [name]) →
  diskWalk (rootedPath (l ++ ["diff"])) (world s) = inl (bytes, inodes) →
  types.WritableLayer (buildContainerStats raw c s).1
  = Some {| types.FilesystemUsage_Timestamp := oci.SystemNano raw;
            types.FsID := Some {| types.Mountpoint := rootedPath (l ++ [name]) |};
            types.UsedBytes := Some {| types.Value := bytes |};
            types.InodesUsed := Some {| types.Value := inodes |} |}.
Proof.
  intros Hst Hall Hmp Hwalk. unfold buildContainerStats, GetDiskUsageStats.
  case_decide; [|done]. by rewrite Hmp, diffDir_rootedPath, Hwalk.
Qed.

(** X26: on the overlay driver, for a container whose mount point has no
    separator, the empty mount point of a container that is not mounted
    included, the directory walked is the relative path [diff], whatever the
    mount point is. *)
Theorem buildContainerStats_measures_relative raw c s (bytes inodes : Z) :
  Storage s = "overlay" →
  filepath.hasSeparator (oci.MountPoint c) = false →
  diskWalk "diff" (world s) = inl (bytes, inodes) →
  types.WritableLayer (buildContainerStats raw c s).1
  = Some {| types.FilesystemUsage_Timestamp := oci.SystemNano raw;
            types.FsID := Some {| types.Mountpoint := oci.MountPoint c |};
            types.UsedBytes := Some {| types.Value := bytes |};
            types.InodesUsed := Some {| types.Value := inodes |} |}.
Proof.
  intros Hst Hsep Hwalk. unfold buildContainerStats, GetDiskUsageStats.
  case_decide; [|done]. by rewrite diffDir_no_separator, Hwalk.
Qed.

End DiffDirProperties.

(** * The further properties on the test double *)

(** X2 on a request with shares, period, quota and limit. *)
Lemma toOCIResources_values_witness :
  ∃ cpu mem,
    rspec.CPU (@toOCIResources nat Fixture.healthy Fixture.limits) = Some cpu
    ∧ rspec.Memory (@toOCIResources nat Fixture.healthy Fixture.limits) = Some mem
    ∧ rspec.Shares cpu = Some 512 ∧ rspec.Period cpu = Some 100000
    ∧ rspec.Quota cpu = Some 50000 ∧ rspec.Limit mem = Some 268435456.
Proof.
  destruct (@toOCIResources_values nat Fixture.healthy Fixture.limits)
    as (cpu & mem & Hcpu & Hmem & Hs & Hp & Hq & Hl); [simpl; lia | simpl; lia |].
  exists cpu, mem. split; [exact Hcpu|]. split; [exact Hmem|].
  split; [apply Hs; discriminate|]. split; [apply Hp; discriminate|].
  split; [apply Hq; discriminate | apply Hl; discriminate].
Defined.

(** X3 on a request for -2 shares. *)
Lemma toOCIResources_negative_shares_wrap_witness :
  ∃ cpu, rspec.CPU (@toOCIResources nat Fixture.healthy Fixture.negative) = Some cpu
    ∧ rspec.Shares cpu = Some (2 ^ 64 + types.CPUShares Fixture.negative)
    ∧ 2 ^ 63 ≤ 2 ^ 64 + types.CPUShares Fixture.negative < 2 ^ 64.
Proof.
  apply (@toOCIResources_negative_shares_wrap nat Fixture.healthy Fixture.negative).
  simpl; lia.
Defined.

(** X4 on a request with period -1 and quota -1. *)
Lemma toOCIResources_negative_period_wrap_witness :
  ∃ cpu, rspec.CPU (@toOCIResources nat Fixture.healthy Fixture.negative) = Some cpu
    ∧ rspec.Period cpu = Some (2 ^ 64 + types.CPUPeriod Fixture.negative)
    ∧ 2 ^ 63 ≤ 2 ^ 64 + types.CPUPeriod Fixture.negative < 2 ^ 64
    ∧ rspec.Quota cpu = Some (types.CPUQuota Fixture.negative).
Proof.
  apply (@toOCIResources_negative_period_wrap nat Fixture.healthy Fixture.negative);
    simpl; lia.
Defined.

(** X5 on two requests that differ in the OOM score adjustment only. *)
Lemma toOCIResources_eq_iff_witness :
  @toOCIResources nat Fixture.healthy Fixture.limits
  = @toOCIResources nat Fixture.healthy Fixture.limitsOom
  ↔ sameLimits Fixture.limits Fixture.limitsOom.
Proof.
  apply (@toOCIResources_eq_iff nat Fixture.healthy Fixture.limits Fixture.limitsOom);
    unfold int64; simpl; lia.
Defined.

(** X6 on an ID that no container has. *)
Lemma UpdateContainerResources_not_found_witness :
  @UpdateContainerResources nat Fixture.healthy
    {| types.ContainerID := "ffff"; types.Linux := Some Fixture.limits |}
    (Fixture.server "overlay")
  = (Some "container with ID starting with ffff not found", Fixture.server "overlay").
Proof.
  apply (@UpdateContainerResources_not_found nat Fixture.healthy
           {| types.ContainerID := "ffff"; types.Linux := Some Fixture.limits |}
           (Fixture.server "overlay")).
  vm_compute; reflexivity.
Defined.

(** X8 on a runtime that rejects the update. *)
Lemma UpdateContainerResources_error_keeps_registry_witness :
  containers (@UpdateContainerResources nat Fixture.rejecting
       {| types.ContainerID := "0a"; types.Linux := Some Fixture.limits |}
       (Fixture.server "overlay")).2 = containers (Fixture.server "overlay")
  ∧ sandboxes (@UpdateContainerResources nat Fixture.rejecting
       {| types.ContainerID := "0a"; types.Linux := Some Fixture.limits |}
       (Fixture.server "overlay")).2 = sandboxes (Fixture.server "overlay")
  ∧ ctrIDIndex (@UpdateContainerResources nat Fixture.rejecting
       {| types.ContainerID := "0a"; types.Linux := Some Fixture.limits |}
       (Fixture.server "overlay")).2 = ctrIDIndex (Fixture.server "overlay")
  ∧ Storage (@UpdateContainerResources nat Fixture.rejecting
       {| types.ContainerID := "0a"; types.Linux := Some Fixture.limits |}
       (Fixture.server "overlay")).2 = Storage (Fixture.server "overlay").
Proof.
  apply (@UpdateContainerResources_error_keeps_registry nat Fixture.rejecting
           {| types.ContainerID := "0a"; types.Linux := Some Fixture.limits |}
           (Fixture.server "overlay") "runc update: exit status 1").
  vm_compute; reflexivity.
Defined.

(** X11 on a readable diff directory. *)
Lemma buildContainerStats_probe_ok_witness :
  types.WritableLayer
    (@buildContainerStats nat Fixture.healthy Fixture.raw Fixture.web
       (Fixture.server "overlay")).1
  = Some {| types.FilesystemUsage_Timestamp := oci.SystemNano Fixture.raw;
            types.FsID := Some {| types.Mountpoint := oci.MountPoint Fixture.web |};
            types.UsedBytes := Some {| types.Value := 8192 |};
            types.InodesUsed := Some {| types.Value := 3 |} |}
  ∧ (@buildContainerStats nat Fixture.healthy Fixture.raw Fixture.web
       (Fixture.server "overlay")).2 = Fixture.server "overlay".
Proof.
  apply (@buildContainerStats_probe_ok nat Fixture.healthy Fixture.raw Fixture.web
           (Fixture.server "overlay") 8192 3); reflexivity.
Defined.

(** X18 on a batch that holds the container without sandbox twice. *)
Lemma CRIStatsForContainers_no_sandboxes_witness :
  @CRIStatsForContainers nat Fixture.healthy [Fixture.orphan; Fixture.orphan]
    (Fixture.server "overlay")
  = ([], map sandboxNotFound [Fixture.orphan; Fixture.orphan], Fixture.server "overlay").
Proof.
  apply (@CRIStatsForContainers_no_sandboxes nat Fixture.healthy
           [Fixture.orphan; Fixture.orphan] (Fixture.server "overlay")).
  intros c Hc. apply list_elem_of_In in Hc. simpl in Hc.
  destruct Hc as [<-|[<-|[]]]; vm_compute; reflexivity.
Defined.

(** X19 on a batch of two healthy containers. *)
Lemma CRIStatsForContainers_all_succeed_witness :
  ∃ stats s',
    @CRIStatsForContainers nat Fixture.healthy [Fixture.db; Fixture.web]
      (Fixture.server "overlay") = (stats, [], s')
    ∧ map statsID stats = map (λ c, Some (oci.ID c)) [Fixture.db; Fixture.web].
Proof.
  apply (@CRIStatsForContainers_all_succeed nat Fixture.healthy
           [Fixture.db; Fixture.web] (Fixture.server "overlay")).
  intros c Hc. exists Fixture.pod1.
  apply list_elem_of_In in Hc. simpl in Hc.
  destruct Hc as [<-|[<-|[]]];
    (split; [vm_compute; reflexivity | intros w; by eexists _, _]).
Defined.

(** X20 on an ID that no container has. *)
Lemma ContainerStats_not_found_witness :
  @ContainerStats nat Fixture.healthy
    {| types.ContainerStatsRequest_ContainerID := "ffff" |} (Fixture.server "overlay")
  = (inr "container with ID starting with ffff not found", Fixture.server "overlay").
Proof.
  apply (@ContainerStats_not_found nat Fixture.healthy
           {| types.ContainerStatsRequest_ContainerID := "ffff" |}
           (Fixture.server "overlay")).
  vm_compute; reflexivity.
Defined.

(** X21 on the container whose sandbox is gone. *)
Lemma ContainerStats_sandbox_missing_witness :
  @ContainerStats nat Fixture.healthy
    {| types.ContainerStatsRequest_ContainerID := "77" |} (Fixture.server "overlay")
  = (inr (sandboxNotFound Fixture.orphan), Fixture.server "overlay")
  ∧ Contains (sandboxNotFound Fixture.orphan) (oci.ID Fixture.orphan) = true
  ∧ Contains (sandboxNotFound Fixture.orphan) (oci.Sandbox Fixture.orphan) = true.
Proof.
  apply (@ContainerStats_sandbox_missing nat Fixture.healthy
           {| types.ContainerStatsRequest_ContainerID := "77" |}
           (Fixture.server "overlay") Fixture.orphan);
    vm_compute; reflexivity.
Defined.

(** X22 on a runtime that cannot read the cgroup. *)
Lemma ContainerStats_runtime_error_verbatim_witness :
  @ContainerStats nat Fixture.blind
    {| types.ContainerStatsRequest_ContainerID := "0a" |} (Fixture.server "overlay")
  = (inr "unable to obtain cgroup stats",
     @record nat (CallContainerStats (oci.ID Fixture.web)
                    (sandbox.CgroupParent Fixture.pod1)) 1%nat (Fixture.server "overlay")).
Proof.
  apply (@ContainerStats_runtime_error_verbatim nat Fixture.blind
           {| types.ContainerStatsRequest_ContainerID := "0a" |}
           (Fixture.server "overlay") Fixture.web Fixture.pod1);
    [vm_compute; reflexivity | vm_compute; reflexivity | reflexivity].
Defined.

(** X23 on a healthy container. *)
Lemma ContainerStats_never_inconsistent_witness :
  (∃ e s', @CRIStatsForContainers nat Fixture.healthy [Fixture.web]
             (Fixture.server "vfs") = ([], [e], s')
     ∧ @ContainerStats nat Fixture.healthy
         {| types.ContainerStatsRequest_ContainerID := "0a" |} (Fixture.server "vfs")
       = (inr e, s'))
  ∨ (∃ st s', @CRIStatsForContainers nat Fixture.healthy [Fixture.web]
                (Fixture.server "vfs") = ([st], [], s')
       ∧ statsID st = Some (oci.ID Fixture.web)
       ∧ @ContainerStats nat Fixture.healthy
           {| types.ContainerStatsRequest_ContainerID := "0a" |} (Fixture.server "vfs")
         = (inl {| types.Stats := Some st |}, s')).
Proof.
  apply (@ContainerStats_never_inconsistent nat Fixture.healthy
           {| types.ContainerStatsRequest_ContainerID := "0a" |}
           (Fixture.server "vfs") Fixture.web).
  vm_compute; reflexivity.
Defined.

(** X24 on the response for a healthy container. *)
Lemma ContainerStats_response_inv_witness :
  ∃ c sb raw w st,
    @GetContainerFromShortID nat (Fixture.server "vfs") "0a" = inl c
    ∧ @GetSandbox nat (Fixture.server "vfs") (oci.Sandbox c) = Some sb
    ∧ @runtime_ContainerStats nat Fixture.healthy c (sandbox.CgroupParent sb) 0%nat
      = (inl raw, w)
    ∧ types.Stats
        {| types.Stats := Some (@buildContainerStats nat Fixture.healthy Fixture.raw
             Fixture.web (@record nat (CallContainerStats "0a1b2c" "/kubepods/pod1")
                            1%nat (Fixture.server "vfs"))).1 |} = Some st
    ∧ statsID st = Some (oci.ID c).
Proof.
  apply (@ContainerStats_response_inv nat Fixture.healthy
           {| types.ContainerStatsRequest_ContainerID := "0a" |} (Fixture.server "vfs")
           _ (@buildContainerStats nat Fixture.healthy Fixture.raw
                Fixture.web (@record nat (CallContainerStats "0a1b2c" "/kubepods/pod1")
                               1%nat (Fixture.server "vfs"))).2).
  vm_compute; reflexivity.
Defined.

(** X25 on a container mounted at [/var/lib/containers/storage/overlay/0a1b2c/merged]. *)
Lemma buildContainerStats_measures_sibling_witness :
  types.WritableLayer
    (@buildContainerStats nat
       (double None (λ _, inl Fixture.raw) true
          (λ p, if decide (p = "/var/lib/containers/storage/overlay/0a1b2c/diff")
                then inl (8192, 3) else inr "no such file or directory"))
       Fixture.raw Fixture.web (Fixture.server "overlay")).1
  = Some {| types.FilesystemUsage_Timestamp := oci.SystemNano Fixture.raw;
            types.FsID := Some {| types.Mountpoint :=
              rootedPath (["var"; "lib"; "containers"; "storage"; "overlay"; "0a1b2c"]
                          ++ ["merged"]) |};
            types.UsedBytes := Some {| types.Value := 8192 |};
            types.InodesUsed := Some {| types.Value := 3 |} |}.
Proof.
  apply (@buildContainerStats_measures_sibling nat
           (double None (λ _, inl Fixture.raw) true
              (λ p, if decide (p = "/var/lib/containers/storage/overlay/0a1b2c/diff")
                    then inl (8192, 3) else inr "no such file or directory"))
           Fixture.raw Fixture.web (Fixture.server "overlay")
           ["var"; "lib"; "containers"; "storage"; "overlay"; "0a1b2c"] "merged" 8192 3);
    [reflexivity | repeat constructor | reflexivity | reflexivity].
Defined.

(** X26 on a container that is not mounted. *)
Lemma buildContainerStats_measures_relative_witness :
  types.WritableLayer
    (@buildContainerStats nat
       (double None (λ _, inl Fixture.raw) true
          (λ p, if decide (p = "diff") then inl (8192, 3)
                else inr "no such file or directory"))
       Fixture.raw Fixture.unmounted (Fixture.server "overlay")).1
  = Some {| types.FilesystemUsage_Timestamp := oci.SystemNano Fixture.raw;
            types.FsID := Some {| types.Mountpoint := oci.MountPoint Fixture.unmounted |};
            types.UsedBytes := Some {| types.Value := 8192 |};
            types.InodesUsed := Some {| types.Value := 3 |} |}.
Proof.
  apply (@buildContainerStats_measures_relative nat
           (double None (λ _, inl Fixture.raw) true
              (λ p, if decide (p = "diff") then inl (8192, 3)
                    else inr "no such file or directory"))
           Fixture.raw Fixture.unmounted (Fixture.server "overlay") 8192 3);
    reflexivity.
Defined.
